(** * Notification relay (index.js): a shallow embedding and its properties

    The relay watches [notifications/{userId}/{notificationId}] in the
    Realtime Database, resolves the user's FCM token from Firestore, sends a
    data-only message through the messaging gateway and marks the record as
    processed.  The same file serves [POST /delete-user].

    Layout: JavaScript values and the operators the source relies on
    (truthiness, [||], and [-] and [>] with their conversion to numbers),
    the external services as an environment of outcomes, a small monad for
    state, exceptions and effects, the two [child_added] callbacks and the
    HTTP request listener, then the properties.

    Modelling choices.  Values are the primitive ones (a record's fields,
    a document's fields, a JSON member); numbers are exact, which agrees
    with double arithmetic on integer timestamps.  A callback runs from its
    start to its end as one step, the services answering at each [await] as
    the environment of that step says: other events are taken between
    callbacks, not between the [await]s of one callback.  A service that
    fails rejects with an error value that has properties (not [null], not
    [undefined]).  What a callback does to the outside (log lines, reads,
    sends, writes) is collected in order as a list of effects. *)

From Stdlib Require Import QArith Ascii.
From stdpp Require Import gmap strings list fin_maps.

Local Open Scope string_scope.
Local Open Scope list_scope.

(** ** JavaScript values *)

Module JS.

(** A JavaScript number: the exact value of a finite number, the two
    infinities and NaN.  Arithmetic is exact: the rounding of a result to the
    nearest double and the sign of zero are not represented.  On integers
    below 2^53 in size, such as epoch milliseconds and their differences,
    double arithmetic is exact too. *)
Inductive JSNum : Type :=
  | NaN
  | PosInf
  | NegInf
  | Fin (q : Q).

(** The primitive values a database leaf, a document field or a parsed JSON
    member holds; a missing property reads as [JUndefined]. *)
Inductive JSVal : Type :=
  | JUndefined
  | JNull
  | JBool (b : bool)
  | JNum (n : JSNum)
  | JStr (s : string).

Definition JInt (z : Z) : JSVal := JNum (Fin (inject_Z z)).

(** ToBoolean *)
Definition truthy (v : JSVal) : bool :=
  match v with
  | JUndefined | JNull => false
  | JBool b => b
  | JNum NaN => false
  | JNum (Fin q) => negb (Qeq_bool q 0)
  | JNum _ => true
  | JStr s => negb (String.eqb s "")
  end.

(** [a || b] *)
Definition js_or (a b : JSVal) : JSVal := if truthy a then a else b.

(** *** StringToNumber

    A string is read as a sequence of code units below 256.  The grammar is
    StringNumericLiteral: optional white space around either nothing (value
    0), a signed decimal literal (digits, fraction, exponent, or Infinity) or
    an unsigned binary, octal or hexadecimal integer literal.  Whether a
    string converts to NaN is decided by the grammar alone; the value of a
    literal is its exact value (the source's is the nearest double, the same
    for integer literals below 2^53). *)

Definition is_ws (c : ascii) : bool :=
  let n := N_of_ascii c in
  ((9 <=? n) && (n <=? 13) || (n =? 32) || (n =? 160))%N.

Fixpoint drop_ws (cs : list ascii) : list ascii :=
  match cs with
  | c :: cs' => if is_ws c then drop_ws cs' else cs
  | [] => []
  end.

Definition trim_ws (cs : list ascii) : list ascii :=
  rev (drop_ws (rev (drop_ws cs))).

Definition digit_val (c : ascii) : option N :=
  let n := N_of_ascii c in
  (if (48 <=? n) && (n <=? 57) then Some (n - 48)
   else if (97 <=? n) && (n <=? 102) then Some (n - 87)
   else if (65 <=? n) && (n <=? 70) then Some (n - 55)
   else None)%N.

Definition digit_in (base : N) (c : ascii) : option N :=
  match digit_val c with
  | Some d => if (d <? base)%N then Some d else None
  | None => None
  end.

(** The value of a non-empty run of digits of the base; [None] if the run is
    empty or holds another character. *)
Fixpoint digits_from (base : N) (acc : N) (cs : list ascii) : option N :=
  match cs with
  | [] => Some acc
  | c :: cs' =>
      match digit_in base c with
      | Some d => digits_from base (acc * base + d)%N cs'
      | None => None
      end
  end.

Definition digits_val (base : N) (cs : list ascii) : option N :=
  match cs with
  | [] => None
  | _ => digits_from base 0%N cs
  end.

(** The longest prefix of decimal digits, and the rest. *)
Fixpoint span_digits (cs : list ascii) : list ascii * list ascii :=
  match cs with
  | c :: cs' =>
      match digit_in 10 c with
      | Some _ => let (ds, rest) := span_digits cs' in (c :: ds, rest)
      | None => ([], cs)
      end
  | [] => ([], [])
  end.

(** ExponentPart after its indicator: SignedInteger. *)
Definition parse_exponent (cs : list ascii) : option Z :=
  match cs with
  | "+"%char :: ds => Z.of_N <$> digits_val 10 ds
  | "-"%char :: ds => (fun n => (- Z.of_N n)%Z) <$> digits_val 10 ds
  | ds => Z.of_N <$> digits_val 10 ds
  end.

(** m * 10^e *)
Definition scale10 (m : N) (e : Z) : Q :=
  match e with
  | Zneg p => Z.of_N m # Pos.pow 10 p
  | _ => inject_Z (Z.of_N m * 10 ^ e)
  end.

Definition parse_unsigned_decimal (cs : list ascii) : option JSNum :=
  if decide (cs = String.list_ascii_of_string "Infinity") then Some PosInf else
  let (ip, r1) := span_digits cs in
  let '(dot, fp, r2) :=
    match r1 with
    | "."%char :: r => let (fp, r2) := span_digits r in (true, fp, r2)
    | _ => (false, [], r1)
    end in
  if negb (bool_decide (ip = [])) || (dot && negb (bool_decide (fp = []))) then
    let ex :=
      match r2 with
      | [] => Some 0%Z
      | "e"%char :: r3 | "E"%char :: r3 => parse_exponent r3
      | _ => None
      end in
    match ex, digits_from 10 0%N (ip ++ fp) with
    | Some e, Some m => Some (Fin (scale10 m (e - Z.of_nat (length fp))))
    | _, _ => None
    end
  else None.

Definition js_neg (n : JSNum) : JSNum :=
  match n with
  | NaN => NaN
  | PosInf => NegInf
  | NegInf => PosInf
  | Fin q => Fin (- q)
  end.

Definition parse_numeric_literal (cs : list ascii) : option JSNum :=
  match cs with
  | "0"%char :: ("x"%char | "X"%char) :: ds =>
      (fun n => Fin (inject_Z (Z.of_N n))) <$> digits_val 16 ds
  | "0"%char :: ("o"%char | "O"%char) :: ds =>
      (fun n => Fin (inject_Z (Z.of_N n))) <$> digits_val 8 ds
  | "0"%char :: ("b"%char | "B"%char) :: ds =>
      (fun n => Fin (inject_Z (Z.of_N n))) <$> digits_val 2 ds
  | "+"%char :: r => parse_unsigned_decimal r
  | "-"%char :: r => js_neg <$> parse_unsigned_decimal r
  | _ => parse_unsigned_decimal cs
  end.

Definition StringToNumber (s : string) : JSNum :=
  match trim_ws (String.list_ascii_of_string s) with
  | [] => Fin 0
  | cs => default NaN (parse_numeric_literal cs)
  end.

(** ToNumber *)
Definition ToNumber (v : JSVal) : JSNum :=
  match v with
  | JUndefined => NaN
  | JNull => Fin 0
  | JBool true => Fin 1
  | JBool false => Fin 0
  | JNum n => n
  | JStr s => StringToNumber s
  end.

(** [a - b] on numbers, as the exact difference.  The source's difference is
    this value rounded to the nearest double.  When both operands are
    integers the comparison of line 54 comes out the same either way
    (rounding is monotone and 300000 and 300001 are doubles); the properties
    that conclude from an age are stated for integer timestamps. *)
Definition js_sub (a b : JSNum) : JSNum :=
  match a, b with
  | NaN, _ | _, NaN => NaN
  | PosInf, PosInf | NegInf, NegInf => NaN
  | PosInf, _ | _, NegInf => PosInf
  | NegInf, _ | _, PosInf => NegInf
  | Fin x, Fin y => Fin (x - y)
  end.

(** [a > b] on numbers: false as soon as one side is NaN. *)
Definition js_gt (a b : JSNum) : bool :=
  match a, b with
  | NaN, _ | _, NaN => false
  | PosInf, PosInf => false
  | PosInf, _ => true
  | _, PosInf => false
  | NegInf, _ => false
  | _, NegInf => true
  | Fin x, Fin y => negb (Qle_bool x y)
  end.

End JS.
Import JS.

(** ** Objects, errors and the external services *)

(** A plain object with primitive members: a notification record, a profile
    document, the fields of an update. *)
Abbreviation Obj := (gmap string JSVal).

(** [o.k] *)
Definition prop (o : Obj) (k : string) : JSVal := default JUndefined (o !! k).

(** A thrown value other than [null] and [undefined], seen through the two
    properties the source reads, [error.code] and [error.message] (a property
    that is not there reads as [JUndefined]).  The services and [JSON.parse]
    throw error objects; a rejection with [null] or [undefined], on which
    reading a property would itself throw, is not among the outcomes. *)
Module Err.
Record Error : Type := mk { code : JSVal; message : JSVal }.
End Err.
Abbreviation Error := Err.Error.

(** How a promise settles. *)
Inductive Outcome (A : Type) : Type :=
  | Resolved (a : A)
  | Rejected (e : Error).
Arguments Resolved {A} a.
Arguments Rejected {A} e.

(** How a synchronous evaluation ends: a value, or a throw. *)
Inductive Completion (A : Type) : Type :=
  | Normal (a : A)
  | Throw (e : Error).
Arguments Normal {A} a.
Arguments Throw {A} e.

(** The message handed to [messaging.send]. *)
Module FCM.

Record Data : Type :=
  { title : JSVal; body : JSVal; url : JSVal; type : JSVal; icon : JSVal }.

Record FcmOptions : Type := { link : JSVal }.

Record Webpush : Type := { fcm_options : FcmOptions }.

(** The display part of a message, which the platform shows by itself. *)
Record Notification : Type := { n_title : JSVal; n_body : JSVal }.

Record Message : Type :=
  { token : JSVal;
    notification : option Notification;
    data : Data;
    webpush : Webpush }.

End FCM.

(** The parsed request body, as far as [const { email } = ...] looks at it:
    [null], a number, string or boolean, or an object (or array) with its
    primitive members. *)
Inductive Json : Type :=
  | JsonNull
  | JsonPrimitive (v : JSVal)
  | JsonObject (members : Obj).

Record UserRecord : Type := { uid : string }.

(** What the outside world answers during one callback: the clock, the
    profile store ([None] for a document that does not exist), the gateway,
    the database write, the identity directory.  [JSON_parse] stands for
    [JSON.parse], which is not modelled further. *)
Record Env : Type :=
  { Date_now : Z;
    firestore_get : string -> Outcome (option Obj);
    messaging_send : FCM.Message -> Outcome string;
    database_update : string -> string -> Obj -> Outcome unit;
    JSON_parse : string -> Completion Json;
    getUserByEmail : JSVal -> Outcome UserRecord;
    deleteUser : string -> Outcome unit }.

(** ** Effects *)

Inductive LogLine : Type :=
  | LogAttaching (userId : string)
  | LogProcessing (userId : string) (notification : Obj)
  | LogFetching (userId : string)
  | LogUserFound (userId : string) (tokenExists : bool)
  | LogSending (userId : string)
  | LogSent (response : string)
  | LogMarked (notifId : string)
  | LogNoToken (userId : string)
  | LogNoDocument (userId : string)
  | LogAuthAttempt (email : JSVal)
  | LogAuthDeleted (email : JSVal) (uid : string)
  | ErrSending (error : Error)
  | ErrFetching (error : Error)
  | ErrAuth (error : Error).

Inductive Effect : Type :=
  | ConsoleLog (l : LogLine)
  | ConsoleError (l : LogLine)
  | FirestoreGet (userId : string)
  | MessagingSend (m : FCM.Message)
  | DatabaseUpdate (userId notifId : string) (values : Obj)
  | DatabaseOn (userId : string)
  | AuthGetUserByEmail (email : JSVal)
  | AuthDeleteUser (uid : string)
  | UnhandledRejection (e : Error).

(** ** The monad: environment, state, exceptions, effects *)

Definition M (S A : Type) : Type :=
  Env -> S -> Completion A * S * list Effect.

Section Monad.
Context {S : Type}.

Definition ret {A} (a : A) : M S A := fun _ s => (Normal a, s, []).

Definition bind {A B} (m : M S A) (k : A -> M S B) : M S B :=
  fun env s =>
    match m env s with
    | (Normal a, s1, fx1) =>
        let '(r, s2, fx2) := k a env s1 in (r, s2, fx1 ++ fx2)
    | (Throw e, s1, fx1) => (Throw e, s1, fx1)
    end.

Definition throw {A} (e : Error) : M S A := fun _ s => (Throw e, s, []).

(** [try { m } catch (error) { h error }] *)
Definition try_catch {A} (m : M S A) (h : Error -> M S A) : M S A :=
  fun env s =>
    match m env s with
    | (Normal a, s1, fx1) => (Normal a, s1, fx1)
    | (Throw e, s1, fx1) =>
        let '(r, s2, fx2) := h e env s1 in (r, s2, fx1 ++ fx2)
    end.

Definition ask : M S Env := fun env s => (Normal env, s, []).
Definition get : M S S := fun _ s => (Normal s, s, []).
Definition modify (f : S -> S) : M S unit := fun _ s => (Normal tt, f s, []).
Definition emit (e : Effect) : M S unit := fun _ s => (Normal tt, s, [e]).

(** [await p]: the value of a resolved promise, a throw for a rejected one. *)
Definition await {A} (o : Outcome A) : M S A :=
  match o with
  | Resolved a => ret a
  | Rejected e => throw e
  end.

(** A synchronous call that may throw. *)
Definition call {A} (c : Completion A) : M S A := fun _ s => (c, s, []).

Definition console_log (l : LogLine) : M S unit := emit (ConsoleLog l).
Definition console_error (l : LogLine) : M S unit := emit (ConsoleError l).
End Monad.

Notation "x <- c1 ;; c2" := (bind c1 (fun x => c2))
  (at level 100, c1 at next level, right associativity).
Notation "c1 ;; c2" := (bind c1 (fun _ => c2))
  (at level 100, right associativity).

(** ** The relay *)

(** The records under [notifications], the set [activeListeners], and the
    [child_added] callbacks attached on [notifications/{userId}], one entry
    per call of [userNotifRef.on], oldest first. *)
Record World : Type := mkWorld
  { database : gmap string (gmap string Obj);
    activeListeners : gset string;
    userListeners : list string }.

(** The record at [notifications/{userId}/{notifId}], if there is one. *)
Definition record_at (userId notifId : string) (w : World) : option Obj :=
  database w !! userId ≫= fun user => user !! notifId.

(** [ref.update(values)] on a record: the named children are written, the
    others stay. *)
Definition update_record (values node : Obj) : Obj := values ∪ node.

Definition apply_update (userId notifId : string) (values : Obj)
    (db : gmap string (gmap string Obj)) : gmap string (gmap string Obj) :=
  let user := default ∅ (db !! userId) in
  let node := default ∅ (user !! notifId) in
  <[userId := <[notifId := update_record values node]> user]> db.

Definition firestore_doc_get (userId : string) : M World (option Obj) :=
  emit (FirestoreGet userId);;
  env <- ask;;
  await (firestore_get env userId).

Definition send (message : FCM.Message) : M World string :=
  emit (MessagingSend message);;
  env <- ask;;
  await (messaging_send env message).

Definition child_update (userId notifId : string) (values : Obj) : M World unit :=
  emit (DatabaseUpdate userId notifId values);;
  env <- ask;;
  await (database_update env userId notifId values);;
  modify (fun w =>
    mkWorld (apply_update userId notifId values (database w))
            (activeListeners w) (userListeners w)).

Definition now : M World JSNum :=
  env <- ask;; ret (Fin (inject_Z (Date_now env))).

Definition FIVE_MINUTES : JSNum := Fin (inject_Z (5 * 60 * 1000)).

Definition ICON : JSVal := JStr "https://educationfyp.vercel.app/report.png".

(** Lines 68-83: the message literal. *)
Definition message (fcmToken : JSVal) (notification : Obj) : FCM.Message :=
  {| FCM.token := fcmToken;
     FCM.notification := None;
     FCM.data :=
       {| FCM.title := prop notification "title";
          FCM.body := prop notification "body";
          FCM.url := js_or (prop notification "link") (JStr "/");
          FCM.type := js_or (prop notification "type") (JStr "info");
          FCM.icon := ICON |};
     FCM.webpush :=
       {| FCM.fcm_options :=
            {| FCM.link := js_or (prop notification "link") (JStr "/") |} |} |}.

(** Lines 47-106: the callback of [userNotifRef.on('child_added', ...)],
    closed over [userId]; [snapshot] is the pair of [snapshot.key] and
    [snapshot.val()]. *)
Definition on_notification_added (userId : string) (snapshot : string * Obj)
    : M World unit :=
  let notification := snapshot.2 in
  let notifId := snapshot.1 in
  if truthy (prop notification "processed") then ret tt else
  t <- now;;
  if js_gt (js_sub t (ToNumber (prop notification "timestamp"))) FIVE_MINUTES
  then ret tt else
  console_log (LogProcessing userId notification);;
  try_catch
    (console_log (LogFetching userId);;
     userDoc <- firestore_doc_get userId;;
     match userDoc with
     | Some userData =>
         let fcmToken := prop userData "fcmToken" in
         console_log (LogUserFound userId (truthy fcmToken));;
         if truthy fcmToken then
           try_catch
             (console_log (LogSending userId);;
              response <- send (message fcmToken notification);;
              console_log (LogSent response);;
              child_update userId notifId {[ "processed" := JBool true ]};;
              console_log (LogMarked notifId))
             (fun error => console_error (ErrSending error))
         else console_log (LogNoToken userId)
     | None => console_log (LogNoDocument userId)
     end)
    (fun error => console_error (ErrFetching error)).

(** Lines 36-107: the callback of [notificationsRef.on('child_added', ...)]. *)
Definition on_user_added (userId : string) : M World unit :=
  w <- get;;
  if bool_decide (userId ∈ activeListeners w) then ret tt else
  modify (fun w =>
    mkWorld (database w) ({[ userId ]} ∪ activeListeners w) (userListeners w));;
  console_log (LogAttaching userId);;
  emit (DatabaseOn userId);;
  modify (fun w =>
    mkWorld (database w) (activeListeners w) (userListeners w ++ [userId])).

(** The staleness and deduplication guards of lines 51 and 54, on their own. *)
Inductive Decision : Type := Skip | Proceed.

Definition decide_record (now_ms : Z) (notification : Obj) : Decision :=
  if truthy (prop notification "processed") then Skip
  else if js_gt (js_sub (Fin (inject_Z now_ms))
                        (ToNumber (prop notification "timestamp")))
                FIVE_MINUTES
  then Skip
  else Proceed.

(** ** Event delivery *)

(** An async callback runs as a task of its own: a throw inside it rejects
    the task's promise and reaches nobody. *)
Definition spawn {S} (task : M S unit) : M S unit :=
  try_catch task (fun e => emit (UnhandledRejection e)).

(** One run of the per-record task on the record currently stored at
    [notifications/{userId}/{notifId}]. *)
Definition process_record (userId notifId : string) : M World unit :=
  w <- get;;
  match record_at userId notifId w with
  | Some notification => spawn (on_notification_added userId (notifId, notification))
  | None => ret tt
  end.

Fixpoint for_each {S A} (f : A -> M S unit) (l : list A) : M S unit :=
  match l with
  | [] => ret tt
  | a :: l' => f a;; for_each f l'
  end.

Inductive Event : Type :=
  | UserChildAdded (userId : string)
  | NotificationChildAdded (userId notifId : string)
  | ProducerWrite (userId notifId : string) (notification : Obj).

(** The feed calls every callback attached for the path with the same
    snapshot. *)
Definition deliver (ev : Event) : M World unit :=
  match ev with
  | UserChildAdded userId => on_user_added userId
  | NotificationChildAdded userId notifId =>
      w <- get;;
      match record_at userId notifId w with
      | Some notification =>
          for_each
            (fun _ => spawn (on_notification_added userId (notifId, notification)))
            (filter (fun u => u = userId) (userListeners w))
      | None => ret tt
      end
  | ProducerWrite userId notifId notification =>
      modify (fun w =>
        mkWorld (<[userId := <[notifId := notification]>
                                (default ∅ (database w !! userId))]> (database w))
                (activeListeners w) (userListeners w))
  end.

(** A feed event as one step: the callbacks it starts run to their end
    before the next event is taken.  In the source a callback is suspended
    at each [await] and the feed does not wait for it; a delivery that
    overlaps a suspended callback of the same record is not among the runs
    of [run] (what such a callback does is [on_notification_added] on the
    snapshot it was given). *)
Definition step (w : World) (ee : Env * Event) : World * list Effect :=
  let '(_, w', fx) := deliver ee.2 ee.1 w in (w', fx).

Fixpoint run (w : World) (evs : list (Env * Event)) : World * list Effect :=
  match evs with
  | [] => (w, [])
  | ee :: evs' =>
      let (w1, fx1) := step w ee in
      let (w2, fx2) := run w1 evs' in
      (w2, fx1 ++ fx2)
  end.

Definition start (db : gmap string (gmap string Obj)) : World :=
  mkWorld db ∅ [].

Definition reachable (w : World) : Prop :=
  exists db evs, w = (run (start db) evs).1.

(** The gateway calls and the database writes among some effects. *)
Definition sends (fx : list Effect) : list FCM.Message :=
  omap (fun e => match e with MessagingSend m => Some m | _ => None end) fx.

Definition writes (fx : list Effect) : list (string * string * Obj) :=
  omap (fun e => match e with
                 | DatabaseUpdate u n v => Some (u, n, v)
                 | _ => None
                 end) fx.

Definition fetches (fx : list Effect) : list string :=
  omap (fun e => match e with FirestoreGet u => Some u | _ => None end) fx.

(** The users for which [userNotifRef.on] was called, in order. *)
Definition attached (fx : list Effect) : list string :=
  omap (fun e => match e with DatabaseOn u => Some u | _ => None end) fx.

Definition subscriptions (userId : string) (w : World) : nat :=
  length (filter (fun u => u = userId) (userListeners w)).

(** Every registered user has exactly one callback, every other user none. *)
Definition registration_ok (w : World) : Prop :=
  forall u, subscriptions u w = (if bool_decide (u ∈ activeListeners w) then 1 else 0)%nat.

(** The number of top-level [child_added] events for a user in a run. *)
Definition is_user_added (userId : string) (ev : Event) : bool :=
  match ev with
  | UserChildAdded u => String.eqb u userId
  | _ => false
  end.

Definition user_events (userId : string) (evs : list (Env * Event)) : nat :=
  length (List.filter (fun ee => is_user_added userId ee.2) evs).

(** ** The HTTP server *)

Module Http.

Record Request : Type := { method : string; url : string; body : string }.

(** What [res.end] was called with; a JSON body is kept as the object given
    to [JSON.stringify], members in order. *)
Inductive Body : Type :=
  | Empty
  | Text (s : string)
  | JsonOf (members : list (string * JSVal)).

Record Response : Type := mk
  { statusCode : Z;
    headers : gmap string string;
    ended : option Body }.

(** A fresh [res]. *)
Definition fresh : Response := mk 200 ∅ None.

Definition setHeader (name value : string) : M Response unit :=
  modify (fun res => mk (statusCode res) (<[name := value]> (headers res)) (ended res)).

Definition set_statusCode (c : Z) : M Response unit :=
  modify (fun res => mk c (headers res) (ended res)).

Definition end_ (b : Body) : M Response unit :=
  modify (fun res => mk (statusCode res) (headers res) (Some b)).

End Http.

Definition TypeError_destructure : Error :=
  Err.mk JUndefined
    (JStr "Cannot destructure property 'email' of 'JSON.parse(...)' as it is null.").

(** [const { email } = parsed] *)
Definition destructure_email {S} (parsed : Json) : M S JSVal :=
  match parsed with
  | JsonNull => throw TypeError_destructure
  | JsonPrimitive _ => ret JUndefined
  | JsonObject members => ret (prop members "email")
  end.

Definition strict_eq_string (v : JSVal) (s : string) : bool :=
  match v with
  | JStr s' => String.eqb s' s
  | _ => false
  end.

(** Lines 128-139: the body of the [try]. *)
Definition delete_user_try (body : string) : M Http.Response unit :=
  env <- ask;;
  parsed <- call (JSON_parse env body);;
  email <- destructure_email parsed;;
  (if negb (truthy email)
   then throw (Err.mk JUndefined (JStr "Email is required"))
   else ret tt);;
  console_log (LogAuthAttempt email);;
  emit (AuthGetUserByEmail email);;
  userRecord <- await (getUserByEmail env email);;
  emit (AuthDeleteUser (uid userRecord));;
  await (deleteUser env (uid userRecord));;
  console_log (LogAuthDeleted email (uid userRecord));;
  Http.set_statusCode 200;;
  Http.setHeader "Content-Type" "application/json";;
  Http.end_ (Http.JsonOf [("success", JBool true);
                          ("message", JStr "User deleted from Auth")]).

(** Lines 140-153: the [catch]. *)
Definition delete_user_catch (error : Error) : M Http.Response unit :=
  console_error (ErrAuth error);;
  if strict_eq_string (Err.code error) "auth/user-not-found" then
    Http.set_statusCode 200;;
    Http.setHeader "Content-Type" "application/json";;
    Http.end_ (Http.JsonOf [("success", JBool true);
                            ("message", JStr "User already deleted")])
  else
    Http.set_statusCode 500;;
    Http.setHeader "Content-Type" "application/json";;
    Http.end_ (Http.JsonOf [("success", JBool false);
                            ("error", Err.message error)]).

(** Lines 127-154: the callback of [req.on('end', ...)]. *)
Definition delete_user (body : string) : M Http.Response unit :=
  try_catch (delete_user_try body) delete_user_catch.

(** Lines 112-161: the request listener, with the body already read. *)
Definition request_listener (req : Http.Request) : M Http.Response unit :=
  Http.setHeader "Access-Control-Allow-Origin" "*";;
  Http.setHeader "Access-Control-Allow-Methods" "POST, OPTIONS, GET";;
  Http.setHeader "Access-Control-Allow-Headers" "Content-Type";;
  if String.eqb (Http.method req) "OPTIONS" then
    Http.set_statusCode 204;;
    Http.end_ Http.Empty
  else if String.eqb (Http.method req) "POST"
          && String.eqb (Http.url req) "/delete-user" then
    spawn (delete_user (Http.body req))
  else
    Http.set_statusCode 200;;
    Http.setHeader "Content-Type" "text/plain";;
    Http.end_ (Http.Text "Notification Service is Running
").

(** The response a request ends with. *)
Definition respond (env : Env) (req : Http.Request) : Http.Response :=
  (request_listener req env Http.fresh).1.2.

(** ** Running a computation *)

Definition completion {S A} (m : M S A) (env : Env) (s : S) : Completion A :=
  (m env s).1.1.
Definition final_state {S A} (m : M S A) (env : Env) (s : S) : S :=
  (m env s).1.2.
Definition effects {S A} (m : M S A) (env : Env) (s : S) : list Effect :=
  (m env s).2.

(** [typeof v === 'number'] *)
Definition is_number (v : JSVal) : bool :=
  match v with
  | JNum _ => true
  | _ => false
  end.

(** ** Sample data *)

Module Sample.

Definition profile : Obj := {[ "fcmToken" := JStr "tok123" ]}.

Definition profile_without_token : Obj := {[ "displayName" := JStr "Ada" ]}.

Definition unreachable : Error :=
  Err.mk (JStr "messaging/server-unavailable") (JStr "The server is unavailable").

Definition not_found : Error :=
  Err.mk (JStr "auth/user-not-found")
         (JStr "There is no user record corresponding to the provided identifier.").

Definition env (t : Z) (doc : Outcome (option Obj)) (sent : Outcome string)
    (written : Outcome unit) : Env :=
  {| Date_now := t;
     firestore_get := fun _ => doc;
     messaging_send := fun _ => sent;
     database_update := fun _ _ _ => written;
     JSON_parse := fun _ => Normal JsonNull;
     getUserByEmail := fun _ => Rejected not_found;
     deleteUser := fun _ => Resolved tt |}.

Definition ada : JSVal := JStr "ada@example.org".

(** An environment for the HTTP endpoint. *)
Definition directory (parsed : Completion Json) (found : Outcome UserRecord)
    (deleted : Outcome unit) : Env :=
  {| Date_now := 1700000000000;
     firestore_get := fun _ => Resolved None;
     messaging_send := fun _ => Rejected unreachable;
     database_update := fun _ _ _ => Resolved tt;
     JSON_parse := fun _ => parsed;
     getUserByEmail := fun _ => found;
     deleteUser := fun _ => deleted |}.

Definition dq : string := String (ascii_of_nat 34) EmptyString.

Definition delete_request : Http.Request :=
  {| Http.method := "POST";
     Http.url := "/delete-user";
     Http.body := "{" ++ dq ++ "email" ++ dq ++ ":" ++ dq ++ "ada@example.org"
                  ++ dq ++ "}" |}.

Definition happy (t : Z) : Env :=
  env t (Resolved (Some profile)) (Resolved "projects/p/messages/1") (Resolved tt).

(** A record created at 1700000000000 ms. *)
Definition fresh_record : Obj :=
  {[ "title" := JStr "Hi"; "body" := JStr "New grade posted";
     "timestamp" := JInt 1700000000000; "processed" := JBool false ]}.

Definition done_record : Obj :=
  {[ "title" := JStr "Hi"; "body" := JStr "New grade posted";
     "timestamp" := JInt 1700000000000; "processed" := JBool true ]}.

(** The same creation time, written as a string. *)
Definition stringly_record : Obj :=
  {[ "title" := JStr "Hi"; "body" := JStr "New grade posted";
     "timestamp" := JStr "1700000000000" ]}.

(** A record whose optional fields are present but blank. *)
Definition blank_link_record : Obj :=
  {[ "title" := JStr "Hi"; "body" := JStr "New grade posted";
     "link" := JStr ""; "type" := JStr "";
     "timestamp" := JInt 1700000000000 ]}.

Definition linked_record : Obj :=
  {[ "title" := JStr "Hi"; "body" := JStr "New grade posted";
     "link" := JStr "/grades"; "type" := JStr "grade";
     "timestamp" := JInt 1700000000000 ]}.

Definition undated_record : Obj :=
  {[ "title" := JStr "Hi"; "body" := JStr "New grade posted" ]}.

Definition world : World :=
  mkWorld {[ "u1" := {[ "n1" := fresh_record; "n2" := done_record;
                        "n3" := blank_link_record; "n4" := linked_record ]};
             "u2" := {[ "n1" := undated_record ]} ]}
          {[ "u1" ]} ["u1"].

End Sample.

(** ** Observations over runs *)

(** The sends that resolved: line 88 logs the response exactly then. *)
Definition deliveries (fx : list Effect) : list string :=
  omap (fun e => match e with
                 | ConsoleLog (LogSent response) => Some response
                 | _ => None
                 end) fx.

(** The callbacks that ended in a throw nobody caught. *)
Definition rejections (fx : list Effect) : list Error :=
  omap (fun e => match e with UnhandledRejection e => Some e | _ => None end) fx.

(** The calls to the identity directory. *)
Definition lookups (fx : list Effect) : list JSVal :=
  omap (fun e => match e with AuthGetUserByEmail email => Some email | _ => None end) fx.

Definition deletions (fx : list Effect) : list string :=
  omap (fun e => match e with AuthDeleteUser u => Some u | _ => None end) fx.

(** The kinds of effect the per-record callback has. *)
Definition record_effect (e : Effect) : bool :=
  match e with
  | ConsoleLog _ | ConsoleError _ | FirestoreGet _ | MessagingSend _
  | DatabaseUpdate _ _ _ => true
  | _ => false
  end.

(** A record with the marker written over it. *)
Definition mark (r : Obj) : Obj := update_record {[ "processed" := JBool true ]} r.

Definition is_notification_added (userId notifId : string) (ev : Event) : bool :=
  match ev with
  | NotificationChildAdded u n => String.eqb u userId && String.eqb n notifId
  | _ => false
  end.

Definition is_producer_write (ev : Event) : bool :=
  match ev with
  | ProducerWrite _ _ _ => true
  | _ => false
  end.

Definition is_producer_write_at (userId notifId : string) (ev : Event) : bool :=
  match ev with
  | ProducerWrite u n _ => String.eqb u userId && String.eqb n notifId
  | _ => false
  end.

(** The resolved sends made, along a run, by the deliveries of the feed event
    of one record. *)
Fixpoint deliveries_of (userId notifId : string) (w : World)
    (evs : list (Env * Event)) : list string :=
  match evs with
  | [] => []
  | ee :: evs' =>
      let (w1, fx1) := step w ee in
      (if is_notification_added userId notifId ee.2 then deliveries fx1 else [])
      ++ deliveries_of userId notifId w1 evs'
  end.

(** The world with the marker written at one record. *)
Definition mark_at (userId notifId : string) (w : World) : World :=
  mkWorld (apply_update userId notifId {[ "processed" := JBool true ]} (database w))
          (activeListeners w) (userListeners w).

(** Every record of [w] is the record of [w0] at the same place, as it was or
    with the marker written over it; no record appeared or went away. *)
Definition only_marked (w0 w : World) : Prop :=
  forall u n,
    record_at u n w = record_at u n w0 \/
    exists r, record_at u n w0 = Some r /\ record_at u n w = Some (mark r).

(** All the effects, along a run, of the deliveries of the feed event of one
    record. *)
Fixpoint effects_of (userId notifId : string) (w : World)
    (evs : list (Env * Event)) : list Effect :=
  match evs with
  | [] => []
  | ee :: evs' =>
      let (w1, fx1) := step w ee in
      (if is_notification_added userId notifId ee.2 then fx1 else [])
      ++ effects_of userId notifId w1 evs'
  end.


(** The three CORS headers of lines 114-116. *)
Definition cors_headers (res : Http.Response) : Prop :=
  Http.headers res !! "Access-Control-Allow-Origin" = Some "*" /\
  Http.headers res !! "Access-Control-Allow-Methods" = Some "POST, OPTIONS, GET" /\
  Http.headers res !! "Access-Control-Allow-Headers" = Some "Content-Type".

Definition health_text : string := "Notification Service is Running
".

(** * Properties *)

(** ** Evaluating the handlers *)

Ltac run_m :=
  cbv [on_notification_added process_record spawn bind ret throw try_catch
       ask get modify emit await console_log console_error firestore_doc_get
       send child_update now fst snd].

Lemma js_gt_Fin (a b c : Q) :
  js_gt (js_sub (Fin a) (Fin b)) (Fin c) = true <-> (c < a - b)%Q.
Proof.
  simpl. rewrite negb_true_iff, <- not_true_iff_false, Qle_bool_iff.
  split; [apply Qnot_le_lt | apply Qlt_not_le].
Qed.

Lemma js_gt_Fin_false (a b c : Q) :
  js_gt (js_sub (Fin a) (Fin b)) (Fin c) = false <-> (a - b <= c)%Q.
Proof.
  simpl. rewrite negb_false_iff. apply Qle_bool_iff.
Qed.

(** The age of a record with an integer timestamp, as line 54 compares it.
    Both operands being integers, the difference is an integer, and so is
    the bound. *)
Lemma stale_JInt (now_ms ts : Z) :
  js_gt (js_sub (Fin (inject_Z now_ms)) (ToNumber (JInt ts))) FIVE_MINUTES = true
  <-> (300000 < now_ms - ts)%Z.
Proof.
  unfold JInt, FIVE_MINUTES. cbn [ToNumber]. rewrite js_gt_Fin.
  unfold Qlt, Qminus, Qplus, Qopp, inject_Z. cbn [Qnum Qden]. lia.
Qed.

Lemma fresh_JInt (now_ms ts : Z) :
  js_gt (js_sub (Fin (inject_Z now_ms)) (ToNumber (JInt ts))) FIVE_MINUTES = false
  <-> (now_ms - ts <= 300000)%Z.
Proof.
  rewrite <- not_true_iff_false, stale_JInt. lia.
Qed.

Lemma prop_absent (o : Obj) (k : string) : o !! k = None -> prop o k = JUndefined.
Proof. unfold prop. now intros ->. Qed.

Lemma decide_record_Proceed (now_ms : Z) (r : Obj) :
  decide_record now_ms r = Proceed <->
  truthy (prop r "processed") = false /\
  js_gt (js_sub (Fin (inject_Z now_ms)) (ToNumber (prop r "timestamp")))
        FIVE_MINUTES = false.
Proof.
  unfold decide_record.
  destruct (truthy _); [intuition discriminate|].
  destruct (js_gt _ _); intuition discriminate.
Qed.

Lemma decide_record_Skip (now_ms : Z) (r : Obj) :
  decide_record now_ms r = Skip <->
  truthy (prop r "processed") = true \/
  js_gt (js_sub (Fin (inject_Z now_ms)) (ToNumber (prop r "timestamp")))
        FIVE_MINUTES = true.
Proof.
  unfold decide_record.
  destruct (truthy _); [intuition|].
  destruct (js_gt _ _); intuition discriminate.
Qed.

(** A skipped record: the callback returns at line 51 or 54. *)
Lemma on_notification_added_Skip env w userId notifId (r : Obj) :
  decide_record (Date_now env) r = Skip ->
  on_notification_added userId (notifId, r) env w = (Normal tt, w, []).
Proof.
  intros H. unfold decide_record in H. run_m.
  destruct (truthy (prop r "processed")); [reflexivity|].
  destruct (js_gt _ _); [reflexivity | discriminate].
Qed.

(** The profile read fails. *)
Lemma on_notification_added_fetch_error env w userId notifId (r : Obj) e :
  decide_record (Date_now env) r = Proceed ->
  firestore_get env userId = Rejected e ->
  on_notification_added userId (notifId, r) env w =
    (Normal tt, w,
     [ConsoleLog (LogProcessing userId r); ConsoleLog (LogFetching userId);
      FirestoreGet userId; ConsoleError (ErrFetching e)]).
Proof.
  intros [Hp Hs]%decide_record_Proceed Hf.
  run_m. rewrite Hp, Hs, Hf. reflexivity.
Qed.

(** No profile document. *)
Lemma on_notification_added_no_document env w userId notifId (r : Obj) :
  decide_record (Date_now env) r = Proceed ->
  firestore_get env userId = Resolved None ->
  on_notification_added userId (notifId, r) env w =
    (Normal tt, w,
     [ConsoleLog (LogProcessing userId r); ConsoleLog (LogFetching userId);
      FirestoreGet userId; ConsoleLog (LogNoDocument userId)]).
Proof.
  intros [Hp Hs]%decide_record_Proceed Hf.
  run_m. rewrite Hp, Hs, Hf. reflexivity.
Qed.

(** A profile without a usable token. *)
Lemma on_notification_added_no_token env w userId notifId (r userData : Obj) :
  decide_record (Date_now env) r = Proceed ->
  firestore_get env userId = Resolved (Some userData) ->
  truthy (prop userData "fcmToken") = false ->
  on_notification_added userId (notifId, r) env w =
    (Normal tt, w,
     [ConsoleLog (LogProcessing userId r); ConsoleLog (LogFetching userId);
      FirestoreGet userId; ConsoleLog (LogUserFound userId false);
      ConsoleLog (LogNoToken userId)]).
Proof.
  intros [Hp Hs]%decide_record_Proceed Hf Ht.
  run_m. rewrite Hp, Hs, Hf, Ht. reflexivity.
Qed.

(** The gateway rejects the message. *)
Lemma on_notification_added_send_error env w userId notifId (r userData : Obj) e :
  decide_record (Date_now env) r = Proceed ->
  firestore_get env userId = Resolved (Some userData) ->
  truthy (prop userData "fcmToken") = true ->
  messaging_send env (message (prop userData "fcmToken") r) = Rejected e ->
  on_notification_added userId (notifId, r) env w =
    (Normal tt, w,
     [ConsoleLog (LogProcessing userId r); ConsoleLog (LogFetching userId);
      FirestoreGet userId; ConsoleLog (LogUserFound userId true);
      ConsoleLog (LogSending userId);
      MessagingSend (message (prop userData "fcmToken") r);
      ConsoleError (ErrSending e)]).
Proof.
  intros [Hp Hs]%decide_record_Proceed Hf Ht Hm.
  run_m. rewrite Hp, Hs, Hf, Ht, Hm. reflexivity.
Qed.

(** The message is sent but the write of the marker is rejected. *)
Lemma on_notification_added_update_error env w userId notifId (r userData : Obj)
    response e :
  decide_record (Date_now env) r = Proceed ->
  firestore_get env userId = Resolved (Some userData) ->
  truthy (prop userData "fcmToken") = true ->
  messaging_send env (message (prop userData "fcmToken") r) = Resolved response ->
  database_update env userId notifId {[ "processed" := JBool true ]} = Rejected e ->
  on_notification_added userId (notifId, r) env w =
    (Normal tt, w,
     [ConsoleLog (LogProcessing userId r); ConsoleLog (LogFetching userId);
      FirestoreGet userId; ConsoleLog (LogUserFound userId true);
      ConsoleLog (LogSending userId);
      MessagingSend (message (prop userData "fcmToken") r);
      ConsoleLog (LogSent response);
      DatabaseUpdate userId notifId {[ "processed" := JBool true ]};
      ConsoleError (ErrSending e)]).
Proof.
  intros [Hp Hs]%decide_record_Proceed Hf Ht Hm Hu.
  run_m. rewrite Hp, Hs, Hf, Ht, Hm, Hu. reflexivity.
Qed.

(** The message is sent and the marker written. *)
Lemma on_notification_added_delivered env w userId notifId (r userData : Obj)
    response :
  decide_record (Date_now env) r = Proceed ->
  firestore_get env userId = Resolved (Some userData) ->
  truthy (prop userData "fcmToken") = true ->
  messaging_send env (message (prop userData "fcmToken") r) = Resolved response ->
  database_update env userId notifId {[ "processed" := JBool true ]} = Resolved tt ->
  on_notification_added userId (notifId, r) env w =
    (Normal tt,
     mkWorld (apply_update userId notifId {[ "processed" := JBool true ]} (database w))
             (activeListeners w) (userListeners w),
     [ConsoleLog (LogProcessing userId r); ConsoleLog (LogFetching userId);
      FirestoreGet userId; ConsoleLog (LogUserFound userId true);
      ConsoleLog (LogSending userId);
      MessagingSend (message (prop userData "fcmToken") r);
      ConsoleLog (LogSent response);
      DatabaseUpdate userId notifId {[ "processed" := JBool true ]};
      ConsoleLog (LogMarked notifId)]).
Proof.
  intros [Hp Hs]%decide_record_Proceed Hf Ht Hm Hu.
  run_m. rewrite Hp, Hs, Hf, Ht, Hm, Hu. reflexivity.
Qed.

(** Whatever the services answer, the callback completes normally, and the
    world is either untouched or has the marker written. *)
Lemma on_notification_added_total env w userId notifId (r : Obj) :
  exists fx,
    attached fx = [] /\
    (on_notification_added userId (notifId, r) env w = (Normal tt, w, fx) \/
     on_notification_added userId (notifId, r) env w =
       (Normal tt,
        mkWorld (apply_update userId notifId {[ "processed" := JBool true ]}
                              (database w))
                (activeListeners w) (userListeners w),
        fx)).
Proof.
  destruct (decide_record (Date_now env) r) eqn:Hd.
  { eexists; split; [|left; now apply on_notification_added_Skip]; reflexivity. }
  destruct (firestore_get env userId) as [[userData|]|e] eqn:Hf.
  - destruct (truthy (prop userData "fcmToken")) eqn:Ht.
    + destruct (messaging_send env (message (prop userData "fcmToken") r))
        as [response|e] eqn:Hm.
      * destruct (database_update env userId notifId {[ "processed" := JBool true ]})
          as [[]|e] eqn:Hu.
        -- eexists; split; [|right; eapply on_notification_added_delivered; eassumption]; reflexivity.
        -- eexists; split; [|left; eapply on_notification_added_update_error; eassumption]; reflexivity.
      * eexists; split; [|left; eapply on_notification_added_send_error; eassumption]; reflexivity.
    + eexists; split; [|left; eapply on_notification_added_no_token; eassumption]; reflexivity.
  - eexists; split; [|left; now apply on_notification_added_no_document]; reflexivity.
  - eexists; split; [|left; eapply on_notification_added_fetch_error; eassumption]; reflexivity.
Qed.

Lemma on_notification_added_Normal env w userId snapshot :
  completion (on_notification_added userId snapshot) env w = Normal tt.
Proof.
  destruct snapshot as [notifId r]. unfold completion.
  destruct (on_notification_added_total env w userId notifId r) as [fx [_ [-> | ->]]];
    reflexivity.
Qed.

Lemma on_notification_added_listeners env w userId snapshot :
  activeListeners (final_state (on_notification_added userId snapshot) env w)
    = activeListeners w /\
  userListeners (final_state (on_notification_added userId snapshot) env w)
    = userListeners w.
Proof.
  destruct snapshot as [notifId r]. unfold final_state.
  destruct (on_notification_added_total env w userId notifId r) as [fx [_ [-> | ->]]];
    split; reflexivity.
Qed.

(** A record that proceeds is logged and its profile is fetched, once. *)
Lemma on_notification_added_Proceed env w userId notifId (r : Obj) :
  decide_record (Date_now env) r = Proceed ->
  exists fx,
    effects (on_notification_added userId (notifId, r)) env w =
      ConsoleLog (LogProcessing userId r) :: ConsoleLog (LogFetching userId)
        :: FirestoreGet userId :: fx /\
    fetches fx = [].
Proof.
  intros Hd. unfold effects.
  destruct (firestore_get env userId) as [[userData|]|e] eqn:Hf.
  - destruct (truthy (prop userData "fcmToken")) eqn:Ht.
    + destruct (messaging_send env (message (prop userData "fcmToken") r))
        as [response|e] eqn:Hm.
      * destruct (database_update env userId notifId {[ "processed" := JBool true ]})
          as [[]|e] eqn:Hu.
        -- rewrite (on_notification_added_delivered _ w _ _ _ _ _ Hd Hf Ht Hm Hu).
           eexists; split; reflexivity.
        -- rewrite (on_notification_added_update_error _ w _ _ _ _ _ _ Hd Hf Ht Hm Hu).
           eexists; split; reflexivity.
      * rewrite (on_notification_added_send_error _ w _ _ _ _ _ Hd Hf Ht Hm).
        eexists; split; reflexivity.
    + rewrite (on_notification_added_no_token _ w _ _ _ _ Hd Hf Ht).
      eexists; split; reflexivity.
  - rewrite (on_notification_added_no_document _ w _ _ _ Hd Hf).
    eexists; split; reflexivity.
  - rewrite (on_notification_added_fetch_error _ w _ _ _ _ Hd Hf).
    eexists; split; reflexivity.
Qed.

(** ** The database after an update *)

Lemma record_at_apply_update userId notifId (values : Obj) db al ul :
  record_at userId notifId (mkWorld (apply_update userId notifId values db) al ul)
  = Some (update_record values
            (default ∅ (record_at userId notifId (mkWorld db al ul)))).
Proof.
  unfold record_at, apply_update; simpl.
  rewrite lookup_insert_eq; simpl. rewrite lookup_insert_eq.
  destruct (db !! userId) as [user|]; simpl; [reflexivity|].
  now rewrite lookup_empty.
Qed.

Lemma record_at_apply_update_other userId notifId (values : Obj) db al ul u n :
  (u, n) <> (userId, notifId) ->
  record_at u n (mkWorld (apply_update userId notifId values db) al ul)
  = record_at u n (mkWorld db al ul).
Proof.
  intros Hne. unfold record_at, apply_update; simpl.
  destruct (decide (u = userId)) as [->|Hu].
  - rewrite lookup_insert_eq; simpl.
    rewrite lookup_insert_ne by (intros E; apply Hne; now rewrite E).
    destruct (db !! userId); simpl; [reflexivity|]. apply lookup_empty.
  - now rewrite lookup_insert_ne by (intros E; now apply Hu).
Qed.

Lemma update_record_processed (r : Obj) :
  prop (update_record {[ "processed" := JBool true ]} r) "processed" = JBool true.
Proof.
  unfold prop, update_record.
  erewrite lookup_union_Some_l; [reflexivity|]. apply lookup_singleton_eq.
Qed.

Lemma update_record_other (r : Obj) (k : string) :
  k <> "processed" ->
  update_record {[ "processed" := JBool true ]} r !! k = r !! k.
Proof.
  intros Hk. unfold update_record.
  apply lookup_union_r. now apply lookup_singleton_ne.
Qed.

(** ** The filter *)

(** C2. What the callback does with a record is decided by the record and
    the clock alone, by the two guards in order.  A record whose [processed]
    is true is skipped: the callback returns at once, with no effect.  A
    record whose age [now - timestamp] exceeds 300000 ms is skipped in the
    same way, whatever [processed] holds.  A record whose [processed] is
    unset or false and whose age is at most 300000 ms proceeds: the callback
    logs it and goes on to read the profile.  Timestamps are integers
    (epoch milliseconds). *)
Theorem C2_filter_rules (env : Env) (w : World) (userId notifId : string)
    (notification : Obj) :
  let task := on_notification_added userId (notifId, notification) in
  (prop notification "processed" = JBool true ->
   decide_record (Date_now env) notification = Skip /\
   task env w = (Normal tt, w, [])) /\
  (forall ts : Z,
     prop notification "timestamp" = JInt ts ->
     (300000 < Date_now env - ts)%Z ->
     decide_record (Date_now env) notification = Skip /\
     task env w = (Normal tt, w, [])) /\
  (forall ts : Z,
     notification !! "processed" = None \/
       notification !! "processed" = Some (JBool false) ->
     prop notification "timestamp" = JInt ts ->
     (Date_now env - ts <= 300000)%Z ->
     decide_record (Date_now env) notification = Proceed /\
     (exists fx,
        effects task env w =
          ConsoleLog (LogProcessing userId notification)
            :: ConsoleLog (LogFetching userId) :: FirestoreGet userId :: fx) /\
     fetches (effects task env w) = [userId]).
Proof.
  intros task. split; [|split].
  - intros Hp.
    assert (Hskip : decide_record (Date_now env) notification = Skip).
    { apply decide_record_Skip. left. now rewrite Hp. }
    split; [exact Hskip | now apply on_notification_added_Skip].
  - intros ts Hts Hage.
    assert (Hskip : decide_record (Date_now env) notification = Skip).
    { apply decide_record_Skip. right. rewrite Hts. now apply stale_JInt. }
    split; [exact Hskip | now apply on_notification_added_Skip].
  - intros ts Hp Hts Hage.
    assert (Hgo : decide_record (Date_now env) notification = Proceed).
    { apply decide_record_Proceed. split.
      - unfold prop. now destruct Hp as [-> | ->].
      - rewrite Hts. now apply fresh_JInt. }
    split; [exact Hgo|].
    destruct (on_notification_added_Proceed env w userId notifId notification Hgo)
      as (fx & Hfx & Hfetch).
    split; [now exists fx|].
    unfold task. rewrite Hfx. cbn [fetches omap list_omap].
    unfold fetches in Hfetch. now rewrite Hfetch.
Qed.

Lemma C2_filter_rules_witness :
  let task := on_notification_added "u1" ("n1", Sample.fresh_record) in
  on_notification_added "u1" ("n2", Sample.done_record)
    (Sample.happy 1700000060000) Sample.world = (Normal tt, Sample.world, []) /\
  task (Sample.happy 1700000600000) Sample.world = (Normal tt, Sample.world, []) /\
  fetches (effects task (Sample.happy 1700000300000) Sample.world) = ["u1"].
Proof.
  split; [|split].
  - apply (proj1 (C2_filter_rules (Sample.happy 1700000060000) Sample.world
                    "u1" "n2" Sample.done_record)).
    reflexivity.
  - apply (proj1 (proj2 (C2_filter_rules (Sample.happy 1700000600000) Sample.world
                           "u1" "n1" Sample.fresh_record))
             1700000000000%Z).
    + reflexivity.
    + cbn. lia.
  - apply (proj2 (proj2 (C2_filter_rules (Sample.happy 1700000300000) Sample.world
                           "u1" "n1" Sample.fresh_record))
             1700000000000%Z).
    + right. reflexivity.
    + reflexivity.
    + cbn. lia.
Defined.

(** C8. A record whose (integer) timestamp is more than 300000 ms before the
    clock ends the task before anything else happens: no profile fetch, no
    gateway call, no write, not even a log line, and the world (this record
    and all others) is as before. *)
Theorem C8_stale_skip_no_effects (env : Env) (w : World) (userId notifId : string)
    (notification : Obj) (ts : Z) :
  prop notification "timestamp" = JInt ts ->
  (300000 < Date_now env - ts)%Z ->
  let task := on_notification_added userId (notifId, notification) in
  effects task env w = [] /\
  fetches (effects task env w) = [] /\
  sends (effects task env w) = [] /\
  writes (effects task env w) = [] /\
  final_state task env w = w /\
  completion task env w = Normal tt.
Proof.
  intros Hts Hage task.
  assert (Hskip : decide_record (Date_now env) notification = Skip).
  { apply decide_record_Skip. right. rewrite Hts. now apply stale_JInt. }
  unfold effects, final_state, completion, task.
  rewrite (on_notification_added_Skip env w userId notifId notification Hskip).
  repeat split.
Qed.

Lemma C8_stale_skip_no_effects_witness :
  let task := on_notification_added "u1" ("n1", Sample.fresh_record) in
  let env := Sample.happy 1700000600000 in
  effects task env Sample.world = [] /\
  fetches (effects task env Sample.world) = [] /\
  sends (effects task env Sample.world) = [] /\
  writes (effects task env Sample.world) = [] /\
  final_state task env Sample.world = Sample.world /\
  completion task env Sample.world = Normal tt.
Proof.
  apply (C8_stale_skip_no_effects (Sample.happy 1700000600000) Sample.world
           "u1" "n1" Sample.fresh_record 1700000000000%Z).
  - reflexivity.
  - cbn. lia.
Defined.

(** C10, as stated, fails: a timestamp that is not a number is converted
    before the subtraction, and a string of digits converts to that number.
    The record below has a string timestamp, is ten minutes old, and is
    skipped as too old. *)
Lemma C10_counterexample :
  is_number (prop Sample.stringly_record "timestamp") = false /\
  Sample.stringly_record !! "processed" = None /\
  decide_record 1700000600000 Sample.stringly_record = Skip.
Proof. repeat split. Qed.

(** C10, amended. A record whose [timestamp] is absent, or holds a value
    whose conversion to a number is NaN, is never classified as too old,
    whatever the clock says.  Unless its [processed] is truthy the record
    proceeds: the callback logs it and goes on to read the profile, however
    old the record truly is.  When [processed] is truthy the callback
    returns at the first guard.  In both cases it completes without
    throwing. *)
Theorem C10_nan_timestamp_never_stale (env : Env) (w : World)
    (userId notifId : string) (notification : Obj) :
  notification !! "timestamp" = None \/
    ToNumber (prop notification "timestamp") = NaN ->
  let task := on_notification_added userId (notifId, notification) in
  js_gt (js_sub (Fin (inject_Z (Date_now env)))
                (ToNumber (prop notification "timestamp")))
        FIVE_MINUTES = false /\
  decide_record (Date_now env) notification =
    (if truthy (prop notification "processed") then Skip else Proceed) /\
  completion task env w = Normal tt /\
  (truthy (prop notification "processed") = false ->
   (exists fx,
      effects task env w =
        ConsoleLog (LogProcessing userId notification)
          :: ConsoleLog (LogFetching userId) :: FirestoreGet userId :: fx) /\
   fetches (effects task env w) = [userId]) /\
  (truthy (prop notification "processed") = true ->
   task env w = (Normal tt, w, [])).
Proof.
  intros H task.
  assert (Hnan : ToNumber (prop notification "timestamp") = NaN).
  { destruct H as [H | H]; [|exact H]. now rewrite (prop_absent _ _ H). }
  assert (Hd : decide_record (Date_now env) notification =
               (if truthy (prop notification "processed") then Skip else Proceed)).
  { unfold decide_record. now rewrite Hnan. }
  split; [now rewrite Hnan|]. split; [exact Hd|].
  split; [apply on_notification_added_Normal|]. split.
  - intros Hp. rewrite Hp in Hd.
    destruct (on_notification_added_Proceed env w userId notifId notification Hd)
      as (fx & Hfx & Hfetch).
    split; [now exists fx|].
    unfold task. rewrite Hfx. cbn [fetches omap list_omap].
    unfold fetches in Hfetch. now rewrite Hfetch.
  - intros Hp. rewrite Hp in Hd. now apply on_notification_added_Skip.
Qed.

Lemma C10_nan_timestamp_never_stale_witness :
  let task := on_notification_added "u2" ("n1", Sample.undated_record) in
  decide_record 1800000000000 Sample.undated_record = Proceed /\
  fetches (effects task (Sample.happy 1800000000000) Sample.world) = ["u2"].
Proof.
  destruct (C10_nan_timestamp_never_stale (Sample.happy 1800000000000)
              Sample.world "u2" "n1" Sample.undated_record)
    as (_ & Hd & _ & Hgo & _).
  - left. reflexivity.
  - split; [exact Hd|]. apply Hgo. reflexivity.
Defined.

(** ** Resolution and dispatch *)

(** C7. When the record passes the filter and the profile document does not
    exist, or exists without a push token (the field is absent, or holds a
    falsy value), there is no gateway call and no write, the world is left as
    it was, and the task completes normally. *)
Theorem C7_resolver_stops (env : Env) (w : World) (userId notifId : string)
    (notification : Obj) :
  decide_record (Date_now env) notification = Proceed ->
  firestore_get env userId = Resolved None \/
    (exists userData,
       firestore_get env userId = Resolved (Some userData) /\
       (userData !! "fcmToken" = None \/
        truthy (prop userData "fcmToken") = false)) ->
  let task := on_notification_added userId (notifId, notification) in
  sends (effects task env w) = [] /\
  writes (effects task env w) = [] /\
  final_state task env w = w /\
  completion task env w = Normal tt.
Proof.
  intros Hd [Hf | (userData & Hf & Ht)] task;
    unfold effects, final_state, completion, task.
  - rewrite (on_notification_added_no_document _ _ _ _ _ Hd Hf). repeat split.
  - assert (Ht' : truthy (prop userData "fcmToken") = false).
    { destruct Ht as [Ht | Ht]; [|exact Ht]. now rewrite (prop_absent _ _ Ht). }
    rewrite (on_notification_added_no_token _ _ _ _ _ _ Hd Hf Ht').
    repeat split.
Qed.

Lemma C7_resolver_stops_witness :
  let task := on_notification_added "u1" ("n1", Sample.fresh_record) in
  let env :=
    Sample.env 1700000060000 (Resolved (Some Sample.profile_without_token))
               (Resolved "never") (Resolved tt) in
  sends (effects task env Sample.world) = [] /\
  writes (effects task env Sample.world) = [] /\
  final_state task env Sample.world = Sample.world /\
  completion task env Sample.world = Normal tt.
Proof.
  apply (C7_resolver_stops
           (Sample.env 1700000060000 (Resolved (Some Sample.profile_without_token))
                       (Resolved "never") (Resolved tt))
           Sample.world "u1" "n1" Sample.fresh_record).
  - reflexivity.
  - right. exists Sample.profile_without_token. split.
    + reflexivity.
    + left. reflexivity.
Defined.

(** A write of the marker is only ever attempted after a resolved send. *)
Lemma marker_only_after_send env w userId notifId (r : Obj) :
  writes (effects (on_notification_added userId (notifId, r)) env w) <> [] ->
  exists userData response,
    firestore_get env userId = Resolved (Some userData) /\
    messaging_send env (message (prop userData "fcmToken") r) = Resolved response.
Proof.
  unfold effects. intros Hw.
  destruct (decide_record (Date_now env) r) eqn:Hd.
  { rewrite (on_notification_added_Skip _ _ _ _ _ Hd) in Hw. now destruct Hw. }
  destruct (firestore_get env userId) as [[userData|]|e] eqn:Hf.
  - destruct (truthy (prop userData "fcmToken")) eqn:Ht.
    + destruct (messaging_send env (message (prop userData "fcmToken") r))
        as [response|e] eqn:Hm.
      * now exists userData, response.
      * rewrite (on_notification_added_send_error _ _ _ _ _ _ _ Hd Hf Ht Hm) in Hw.
        now destruct Hw.
    + rewrite (on_notification_added_no_token _ _ _ _ _ _ Hd Hf Ht) in Hw.
      now destruct Hw.
  - rewrite (on_notification_added_no_document _ _ _ _ _ Hd Hf) in Hw.
    now destruct Hw.
  - rewrite (on_notification_added_fetch_error _ _ _ _ _ _ Hd Hf) in Hw.
    now destruct Hw.
Qed.

(** C3. When a record reaches dispatch and the gateway rejects the message,
    the error is logged, no write of the marker is attempted and the record
    (with the whole world) stays as it was, the gateway is called exactly
    once (no retry), and the task completes normally.  Conversely, whenever
    the task attempts the marker write, the send had resolved. *)
Theorem C3_dispatch_failure (env : Env) (w : World) (userId notifId : string)
    (notification userData : Obj) (error : Error) :
  decide_record (Date_now env) notification = Proceed ->
  firestore_get env userId = Resolved (Some userData) ->
  truthy (prop userData "fcmToken") = true ->
  messaging_send env (message (prop userData "fcmToken") notification)
    = Rejected error ->
  let task := on_notification_added userId (notifId, notification) in
  In (ConsoleError (ErrSending error)) (effects task env w) /\
  writes (effects task env w) = [] /\
  final_state task env w = w /\
  record_at userId notifId (final_state task env w) = record_at userId notifId w /\
  sends (effects task env w)
    = [message (prop userData "fcmToken") notification] /\
  completion task env w = Normal tt /\
  (forall env' w',
     writes (effects task env' w') <> [] ->
     exists userData' response,
       messaging_send env' (message (prop userData' "fcmToken") notification)
         = Resolved response).
Proof.
  intros Hd Hf Ht Hm task.
  unfold effects, final_state, completion, task.
  rewrite (on_notification_added_send_error _ _ _ _ _ _ _ Hd Hf Ht Hm).
  repeat split.
  - simpl. tauto.
  - intros env' w' Hw.
    destruct (marker_only_after_send env' w' userId notifId notification Hw)
      as (userData' & response & _ & Hs).
    now exists userData', response.
Qed.

Lemma C3_dispatch_failure_witness :
  let task := on_notification_added "u1" ("n1", Sample.fresh_record) in
  let env :=
    Sample.env 1700000060000 (Resolved (Some Sample.profile))
               (Rejected Sample.unreachable) (Resolved tt) in
  writes (effects task env Sample.world) = [] /\
  final_state task env Sample.world = Sample.world /\
  completion task env Sample.world = Normal tt.
Proof.
  destruct (C3_dispatch_failure
              (Sample.env 1700000060000 (Resolved (Some Sample.profile))
                          (Rejected Sample.unreachable) (Resolved tt))
              Sample.world "u1" "n1" Sample.fresh_record Sample.profile
              Sample.unreachable)
    as (_ & Hw & Hs & _ & _ & Hc & _).
  - reflexivity.
  - reflexivity.
  - reflexivity.
  - reflexivity.
  - split; [exact Hw | split; [exact Hs | exact Hc]].
Defined.

(** C5. For every record that passes the filter and resolves to a token,
    exactly one message goes to the gateway; it has no notification part
    (data only), is addressed by the resolved token, and carries the
    record's title and body, the fixed icon, as url [record.link || "/"]
    (so "/" when the link is absent, the link itself when it is a non-empty
    string), as type [record.type || "info"] (so "info" when the type is
    absent), and as webpush link [record.link || "/"]. *)
Theorem C5_message_construction (env : Env) (w : World) (userId notifId : string)
    (notification userData : Obj) :
  decide_record (Date_now env) notification = Proceed ->
  firestore_get env userId = Resolved (Some userData) ->
  truthy (prop userData "fcmToken") = true ->
  exists m,
    sends (effects (on_notification_added userId (notifId, notification)) env w)
      = [m] /\
    FCM.token m = prop userData "fcmToken" /\
    FCM.notification m = None /\
    FCM.title (FCM.data m) = prop notification "title" /\
    FCM.body (FCM.data m) = prop notification "body" /\
    FCM.icon (FCM.data m) = JStr "https://educationfyp.vercel.app/report.png" /\
    FCM.url (FCM.data m) = js_or (prop notification "link") (JStr "/") /\
    (notification !! "link" = None -> FCM.url (FCM.data m) = JStr "/") /\
    (forall s, notification !! "link" = Some (JStr s) -> s <> "" ->
     FCM.url (FCM.data m) = JStr s) /\
    FCM.type (FCM.data m) = js_or (prop notification "type") (JStr "info") /\
    (notification !! "type" = None -> FCM.type (FCM.data m) = JStr "info") /\
    (forall s, notification !! "type" = Some (JStr s) -> s <> "" ->
     FCM.type (FCM.data m) = JStr s) /\
    FCM.link (FCM.fcm_options (FCM.webpush m))
      = js_or (prop notification "link") (JStr "/").
Proof.
  intros Hd Hf Ht.
  exists (message (prop userData "fcmToken") notification).
  assert (Hnonempty : forall s, s <> "" -> negb (String.eqb s "") = true).
  { intros s Hs. apply negb_true_iff, String.eqb_neq, Hs. }
  split.
  - unfold effects.
    destruct (messaging_send env (message (prop userData "fcmToken") notification))
      as [response|e] eqn:Hm.
    + destruct (database_update env userId notifId {[ "processed" := JBool true ]})
        as [[]|e] eqn:Hu.
      * now rewrite (on_notification_added_delivered _ w _ _ _ _ _ Hd Hf Ht Hm Hu).
      * now rewrite (on_notification_added_update_error _ w _ _ _ _ _ _ Hd Hf Ht Hm Hu).
    + now rewrite (on_notification_added_send_error _ w _ _ _ _ _ Hd Hf Ht Hm).
  - cbn [message FCM.token FCM.notification FCM.data FCM.webpush FCM.title
         FCM.body FCM.url FCM.type FCM.icon FCM.fcm_options FCM.link].
    repeat split; try reflexivity; unfold js_or, prop.
    + now intros ->.
    + intros s -> Hs. simpl. now rewrite (Hnonempty s Hs).
    + now intros ->.
    + intros s -> Hs. simpl. now rewrite (Hnonempty s Hs).
Qed.

Lemma C5_message_construction_witness :
  exists m,
    sends (effects (on_notification_added "u1" ("n4", Sample.linked_record))
                   (Sample.happy 1700000060000) Sample.world) = [m] /\
    FCM.token m = JStr "tok123" /\
    FCM.notification m = None /\
    FCM.url (FCM.data m) = JStr "/grades" /\
    FCM.type (FCM.data m) = JStr "grade".
Proof.
  destruct (C5_message_construction (Sample.happy 1700000060000) Sample.world
              "u1" "n4" Sample.linked_record Sample.profile)
    as (m & Hs & Htok & Hn & _ & _ & _ & _ & _ & Hurl & _ & _ & Htype & _).
  - reflexivity.
  - reflexivity.
  - reflexivity.
  - exists m. split; [exact Hs|]. split; [exact Htok|]. split; [exact Hn|].
    split.
    + apply Hurl; [reflexivity | discriminate].
    + apply Htype; [reflexivity | discriminate].
Defined.

(** [||] falls back on every falsy value: a link and a type that are present
    but empty are replaced by the defaults too. *)
Example blank_link_and_type_fall_back :
  sends (effects (on_notification_added "u1" ("n3", Sample.blank_link_record))
                 (Sample.happy 1700000060000) Sample.world)
  = [message (JStr "tok123") Sample.blank_link_record] /\
  FCM.url (FCM.data (message (JStr "tok123") Sample.blank_link_record)) = JStr "/" /\
  FCM.type (FCM.data (message (JStr "tok123") Sample.blank_link_record)) = JStr "info".
Proof. repeat split. Qed.

(** ** The completion marker *)

(** C6. After a successful dispatch the only write is the partial update
    [{processed: true}] at [notifications/{userId}/{notifId}]: that record
    then has [processed] true and every other field as before, and every
    other record of the database is unchanged. *)
Theorem C6_marker_frame (env : Env) (w : World) (userId notifId : string)
    (notification userData : Obj) (response : string) :
  record_at userId notifId w = Some notification ->
  decide_record (Date_now env) notification = Proceed ->
  firestore_get env userId = Resolved (Some userData) ->
  truthy (prop userData "fcmToken") = true ->
  messaging_send env (message (prop userData "fcmToken") notification)
    = Resolved response ->
  database_update env userId notifId {[ "processed" := JBool true ]}
    = Resolved tt ->
  let task := on_notification_added userId (notifId, notification) in
  writes (effects task env w)
    = [(userId, notifId, {[ "processed" := JBool true ]})] /\
  (exists marked,
     record_at userId notifId (final_state task env w) = Some marked /\
     prop marked "processed" = JBool true /\
     forall field, field <> "processed" ->
       marked !! field = notification !! field) /\
  (forall u n, (u, n) <> (userId, notifId) ->
     record_at u n (final_state task env w) = record_at u n w).
Proof.
  intros Hr Hd Hf Ht Hm Hu task.
  unfold effects, final_state, task.
  rewrite (on_notification_added_delivered _ w _ _ _ _ _ Hd Hf Ht Hm Hu).
  cbn [fst snd]. destruct w as [db al ul]. cbn [database activeListeners userListeners].
  split; [reflexivity|]. split.
  - eexists. split; [apply record_at_apply_update|]. rewrite Hr. cbn [default].
    split; [apply update_record_processed|].
    intros field Hne. now apply update_record_other.
  - intros u n Hne. now apply record_at_apply_update_other.
Qed.

Lemma C6_marker_frame_witness :
  let task := on_notification_added "u1" ("n1", Sample.fresh_record) in
  let w' := final_state task (Sample.happy 1700000060000) Sample.world in
  (exists marked,
     record_at "u1" "n1" w' = Some marked /\
     prop marked "processed" = JBool true /\
     marked !! "title" = Some (JStr "Hi")) /\
  record_at "u1" "n2" w' = Some Sample.done_record.
Proof.
  destruct (C6_marker_frame (Sample.happy 1700000060000) Sample.world
              "u1" "n1" Sample.fresh_record Sample.profile
              "projects/p/messages/1")
    as (_ & (marked & Hm & Hp & Hframe) & Hsib).
  - reflexivity.
  - reflexivity.
  - reflexivity.
  - reflexivity.
  - reflexivity.
  - reflexivity.
  - split.
    + exists marked. split; [exact Hm|]. split; [exact Hp|].
      rewrite (Hframe "title"); [reflexivity | discriminate].
    + rewrite (Hsib "u1" "n2"); [reflexivity | discriminate].
Defined.

(** ** Idempotence *)

Lemma process_record_found env w userId notifId (r : Obj) :
  record_at userId notifId w = Some r ->
  process_record userId notifId env w
  = on_notification_added userId (notifId, r) env w.
Proof.
  intros Hr. unfold process_record, spawn, bind, get, try_catch. rewrite Hr.
  destruct (on_notification_added_total env w userId notifId r)
    as [fx [_ [-> | ->]]]; reflexivity.
Qed.

(** C1. When the record stored at [(userId, notifId)] is processed and the
    first run delivers it (send resolved) and writes the marker (update
    acknowledged), the stored record has [processed] true, and a second run
    on the same record, whatever the services answer then, returns at the
    first guard without any effect: over both runs the gateway is called
    exactly once. *)
Theorem C1_pipeline_idempotent (env1 env2 : Env) (w : World)
    (userId notifId : string) (notification userData : Obj) (response : string) :
  record_at userId notifId w = Some notification ->
  decide_record (Date_now env1) notification = Proceed ->
  firestore_get env1 userId = Resolved (Some userData) ->
  truthy (prop userData "fcmToken") = true ->
  messaging_send env1 (message (prop userData "fcmToken") notification)
    = Resolved response ->
  database_update env1 userId notifId {[ "processed" := JBool true ]}
    = Resolved tt ->
  let pipeline := process_record userId notifId in
  let w1 := final_state pipeline env1 w in
  let w2 := final_state pipeline env2 w1 in
  (exists marked,
     record_at userId notifId w1 = Some marked /\
     prop marked "processed" = JBool true /\
     decide_record (Date_now env2) marked = Skip) /\
  effects pipeline env2 w1 = [] /\
  w2 = w1 /\
  sends (effects pipeline env1 w ++ effects pipeline env2 w1)
    = [message (prop userData "fcmToken") notification] /\
  length (sends (effects pipeline env1 w ++ effects pipeline env2 w1)) = 1%nat.
Proof.
  intros Hr Hd Hf Ht Hm Hu pipeline w1 w2.
  assert (Hw1 : w1 =
    mkWorld (apply_update userId notifId {[ "processed" := JBool true ]} (database w))
            (activeListeners w) (userListeners w)).
  { unfold w1, final_state, pipeline. rewrite (process_record_found _ _ _ _ _ Hr).
    now rewrite (on_notification_added_delivered _ w _ _ _ _ _ Hd Hf Ht Hm Hu). }
  assert (Hfx1 : sends (effects pipeline env1 w)
                 = [message (prop userData "fcmToken") notification]).
  { unfold effects, pipeline. rewrite (process_record_found _ _ _ _ _ Hr).
    now rewrite (on_notification_added_delivered _ w _ _ _ _ _ Hd Hf Ht Hm Hu). }
  set (marked := update_record {[ "processed" := JBool true ]} notification).
  assert (Hr1 : record_at userId notifId w1 = Some marked).
  { rewrite Hw1. destruct w as [db al ul]. cbn [database activeListeners userListeners].
    rewrite record_at_apply_update. now rewrite Hr. }
  assert (Hskip : decide_record (Date_now env2) marked = Skip).
  { apply decide_record_Skip. left. unfold marked.
    now rewrite update_record_processed. }
  assert (Hrun2 : pipeline env2 w1 = (Normal tt, w1, [])).
  { unfold pipeline. rewrite (process_record_found _ _ _ _ _ Hr1).
    now apply on_notification_added_Skip. }
  assert (Hfx2 : effects pipeline env2 w1 = []) by (unfold effects; now rewrite Hrun2).
  split; [|split; [|split; [|split]]].
  - exists marked. split; [exact Hr1|]. split; [apply update_record_processed | exact Hskip].
  - exact Hfx2.
  - unfold w2, final_state. now rewrite Hrun2.
  - rewrite Hfx2, app_nil_r. exact Hfx1.
  - rewrite Hfx2, app_nil_r, Hfx1. reflexivity.
Qed.

Lemma C1_pipeline_idempotent_witness :
  let pipeline := process_record "u1" "n1" in
  let w1 := final_state pipeline (Sample.happy 1700000060000) Sample.world in
  length (sends (effects pipeline (Sample.happy 1700000060000) Sample.world ++
                 effects pipeline (Sample.happy 1700000120000) w1)) = 1%nat.
Proof.
  apply (C1_pipeline_idempotent (Sample.happy 1700000060000)
           (Sample.happy 1700000120000) Sample.world "u1" "n1"
           Sample.fresh_record Sample.profile "projects/p/messages/1").
  - reflexivity.
  - reflexivity.
  - reflexivity.
  - reflexivity.
  - reflexivity.
  - reflexivity.
Defined.

(** ** Listener registration *)

Lemma on_user_added_known env w userId :
  userId ∈ activeListeners w ->
  on_user_added userId env w = (Normal tt, w, []).
Proof.
  intros Hin. unfold on_user_added, bind, get, ret.
  now rewrite (bool_decide_eq_true_2 _ Hin).
Qed.

Lemma on_user_added_new env w userId :
  userId ∉ activeListeners w ->
  on_user_added userId env w =
    (Normal tt,
     mkWorld (database w) ({[ userId ]} ∪ activeListeners w)
             (userListeners w ++ [userId]),
     [ConsoleLog (LogAttaching userId); DatabaseOn userId]).
Proof.
  intros Hnotin. unfold on_user_added, bind, get, ret.
  now rewrite (bool_decide_eq_false_2 _ Hnotin).
Qed.

Lemma spawn_on_notification_added env w userId snapshot :
  spawn (on_notification_added userId snapshot) env w
  = on_notification_added userId snapshot env w.
Proof.
  destruct snapshot as [notifId r]. unfold spawn, try_catch.
  destruct (on_notification_added_total env w userId notifId r)
    as [fx [_ [-> | ->]]]; reflexivity.
Qed.

(** Running the per-record callbacks never touches the registration. *)
Lemma for_each_callbacks env userId snapshot (l : list string) : forall w,
  let r := for_each (fun _ => spawn (on_notification_added userId snapshot)) l env w in
  activeListeners r.1.2 = activeListeners w /\
  userListeners r.1.2 = userListeners w /\
  attached r.2 = [].
Proof.
  induction l as [|u l IH]; intros w; [repeat split|].
  cbn [for_each]. unfold bind. rewrite spawn_on_notification_added.
  destruct snapshot as [notifId n].
  destruct (on_notification_added_total env w userId notifId n)
    as [fx [Hfx [-> | ->]]].
  - specialize (IH w). cbn zeta in IH.
    destruct (for_each _ l env w) as [[c w'] fx']. cbn [fst snd] in *.
    destruct IH as (? & ? & Ha). repeat split; try assumption.
    unfold attached in *. now rewrite omap_app, Hfx, Ha.
  - match goal with |- context [for_each _ l env ?w1] =>
      specialize (IH w1); cbn zeta in IH;
      destruct (for_each _ l env w1) as [[c w'] fx'] end.
    cbn [fst snd activeListeners userListeners] in *.
    destruct IH as (? & ? & Ha). repeat split; try assumption.
    unfold attached in *. now rewrite omap_app, Hfx, Ha.
Qed.

(** What one event does to the registration. *)
Lemma step_registration (w : World) (ee : Env * Event) :
  (activeListeners (step w ee).1 = activeListeners w /\
   userListeners (step w ee).1 = userListeners w /\
   attached (step w ee).2 = []) \/
  (exists userId,
     ee.2 = UserChildAdded userId /\ (userId ∉ activeListeners w) /\
     activeListeners (step w ee).1 = {[ userId ]} ∪ activeListeners w /\
     userListeners (step w ee).1 = userListeners w ++ [userId] /\
     attached (step w ee).2 = [userId]).
Proof.
  destruct ee as [env [userId | userId notifId | userId notifId n]];
    unfold step; cbn [fst snd deliver].
  - destruct (decide (userId ∈ activeListeners w)) as [Hin | Hnotin].
    + left. now rewrite (on_user_added_known _ _ _ Hin).
    + right. exists userId. rewrite (on_user_added_new _ _ _ Hnotin).
      repeat split; assumption.
  - left. unfold bind, get. destruct (record_at userId notifId w) as [n|].
    + pose proof (for_each_callbacks env userId (notifId, n)
                    (filter (fun u => u = userId) (userListeners w)) w) as H.
      cbn zeta in H. destruct (for_each _ _ env w) as [[c w'] fx'].
      exact H.
    + repeat split.
  - left. repeat split.
Qed.

Lemma filter_eq_snoc (u userId : string) (ul : list string) :
  length (filter (fun x => x = u) (ul ++ [userId]))
  = (length (filter (fun x => x = u) ul)
     + if bool_decide (userId = u) then 1 else 0)%nat.
Proof.
  rewrite filter_app, length_app. f_equal.
  rewrite filter_cons, filter_nil.
  destruct (decide (userId = u)) as [E|E].
  - now rewrite (bool_decide_eq_true_2 _ E).
  - now rewrite (bool_decide_eq_false_2 _ E).
Qed.

Lemma step_registration_ok (w : World) (ee : Env * Event) :
  registration_ok w -> registration_ok (step w ee).1.
Proof.
  intros Hok u.
  destruct (step_registration w ee) as [(Ha & Hu & _) | (userId & _ & Hnew & Ha & Hu & _)].
  - unfold subscriptions. rewrite Hu, Ha. apply Hok.
  - unfold subscriptions. rewrite Hu, Ha, filter_eq_snoc.
    fold (subscriptions u w). rewrite (Hok u).
    destruct (decide (userId = u)) as [<- | Hne].
    + rewrite (bool_decide_eq_true_2 (userId = userId) eq_refl).
      rewrite (bool_decide_eq_false_2 _ Hnew).
      rewrite bool_decide_eq_true_2; [reflexivity|].
      now apply elem_of_union_l, elem_of_singleton_2.
    + rewrite (bool_decide_eq_false_2 _ Hne), Nat.add_0_r.
      destruct (decide (u ∈ activeListeners w)) as [Hin | Hnotin].
      * rewrite (bool_decide_eq_true_2 _ Hin).
        rewrite bool_decide_eq_true_2; [reflexivity|].
        now apply elem_of_union_r.
      * rewrite (bool_decide_eq_false_2 _ Hnotin).
        rewrite bool_decide_eq_false_2; [reflexivity|].
        intros [E%elem_of_singleton | E]%elem_of_union; [congruence | contradiction].
Qed.

Lemma run_registration_ok (evs : list (Env * Event)) : forall w,
  registration_ok w -> registration_ok (run w evs).1.
Proof.
  induction evs as [|ee evs IH]; intros w Hok; [exact Hok|].
  cbn [run]. pose proof (step_registration_ok w ee Hok) as H1.
  destruct (step w ee) as [w1 fx1]. specialize (IH w1 H1).
  destruct (run w1 evs) as [w2 fx2]. exact IH.
Qed.

Lemma start_registration_ok db : registration_ok (start db).
Proof. intros u. reflexivity. Qed.

(** The callbacks attached are exactly the [on] calls made. *)
Lemma run_attached (evs : list (Env * Event)) : forall w,
  userListeners (run w evs).1 = userListeners w ++ attached (run w evs).2.
Proof.
  induction evs as [|ee evs IH]; intros w.
  - cbn. now rewrite app_nil_r.
  - cbn [run].
    pose proof (step_registration w ee) as Hs.
    destruct (step w ee) as [w1 fx1]. specialize (IH w1).
    destruct (run w1 evs) as [w2 fx2]. cbn [fst snd] in *.
    unfold attached in *. rewrite omap_app, IH.
    destruct Hs as [(_ & -> & ->) | (userId & _ & _ & _ & -> & ->)].
    + reflexivity.
    + now rewrite <- app_assoc.
Qed.

Lemma run_app (evs1 evs2 : list (Env * Event)) : forall w,
  run w (evs1 ++ evs2) =
    ((run (run w evs1).1 evs2).1, (run w evs1).2 ++ (run (run w evs1).1 evs2).2).
Proof.
  induction evs1 as [|ee evs1 IH]; intros w.
  - cbn. now destruct (run w evs2).
  - cbn [app run]. destruct (step w ee) as [w1 fx1]. rewrite IH.
    destruct (run w1 evs1) as [w2 fx2]. cbn [fst snd].
    destruct (run w2 evs2) as [w3 fx3]. cbn [fst snd]. now rewrite app_assoc.
Qed.

(** Once registered, a user stays registered. *)
Lemma run_keeps_registered (evs : list (Env * Event)) : forall w u,
  u ∈ activeListeners w -> u ∈ activeListeners (run w evs).1.
Proof.
  induction evs as [|ee evs IH]; intros w u Hin; [exact Hin|].
  cbn [run]. pose proof (step_registration w ee) as Hs.
  destruct (step w ee) as [w1 fx1]. specialize (IH w1 u).
  destruct (run w1 evs) as [w2 fx2]. cbn [fst snd] in *. apply IH.
  destruct Hs as [(-> & _) | (userId & _ & _ & -> & _)]; set_solver.
Qed.

Lemma step_registers env w userId :
  userId ∈ activeListeners (step w (env, UserChildAdded userId)).1.
Proof.
  unfold step; cbn [fst snd deliver].
  destruct (decide (userId ∈ activeListeners w)) as [Hin | Hnotin].
  - now rewrite (on_user_added_known _ _ _ Hin).
  - rewrite (on_user_added_new _ _ _ Hnotin). cbn. set_solver.
Qed.

Lemma registration_ok_le (w : World) :
  registration_ok w -> forall u, (subscriptions u w <= 1)%nat.
Proof.
  intros Hok u. rewrite (Hok u). destruct (bool_decide _); lia.
Qed.

Lemma run_registers (userId : string) (evs : list (Env * Event)) : forall w,
  (1 <= user_events userId evs)%nat ->
  userId ∈ activeListeners (run w evs).1.
Proof.
  induction evs as [|ee evs IH]; intros w HN; [cbn in HN; lia|].
  cbn [run]. destruct (is_user_added userId ee.2) eqn:Hev.
  - destruct ee as [env [u | u n | u n r]]; cbn in Hev; try discriminate.
    apply String.eqb_eq in Hev. subst u.
    pose proof (step_registers env w userId) as H1.
    destruct (step w (env, UserChildAdded userId)) as [w1 fx1].
    pose proof (run_keeps_registered evs w1 userId H1) as H2.
    destruct (run w1 evs) as [w2 fx2]. exact H2.
  - unfold user_events in HN. cbn [List.filter] in HN. rewrite Hev in HN.
    destruct (step w ee) as [w1 fx1]. specialize (IH w1 HN).
    destruct (run w1 evs) as [w2 fx2]. exact IH.
Qed.

(** C4. Take any run of the process from its start, in which N >= 1
    top-level [child_added] events for a user occur (among any other
    events): at the end exactly one callback is attached on that user's
    sub-tree, and over the whole run [on] was called exactly once for that
    user.  In every reachable state every user has at most one callback. *)
Theorem C4_registration_unique (db : gmap string (gmap string Obj))
    (evs : list (Env * Event)) (userId : string) (N : nat) :
  user_events userId evs = N ->
  (1 <= N)%nat ->
  subscriptions userId (run (start db) evs).1 = 1%nat /\
  length (filter (fun u => u = userId) (attached (run (start db) evs).2)) = 1%nat /\
  (forall w, reachable w -> forall u, (subscriptions u w <= 1)%nat).
Proof.
  intros <- HN.
  assert (Hok : registration_ok (run (start db) evs).1)
    by apply run_registration_ok, start_registration_ok.
  assert (Hone : subscriptions userId (run (start db) evs).1 = 1%nat).
  { rewrite (Hok userId).
    now rewrite (bool_decide_eq_true_2 _ (run_registers userId evs (start db) HN)). }
  split; [exact Hone|]. split.
  - pose proof (run_attached evs (start db)) as Ha.
    cbn [start userListeners app] in Ha. rewrite <- Ha. exact Hone.
  - intros w (db0 & evs0 & ->). apply registration_ok_le.
    apply run_registration_ok, start_registration_ok.
Qed.

Lemma C4_registration_unique_witness :
  let evs := [(Sample.happy 1, UserChildAdded "u1");
              (Sample.happy 2, UserChildAdded "u2");
              (Sample.happy 3, NotificationChildAdded "u1" "n1");
              (Sample.happy 4, UserChildAdded "u1");
              (Sample.happy 5, UserChildAdded "u1")] in
  subscriptions "u1" (run (start (database Sample.world)) evs).1 = 1%nat.
Proof.
  apply (C4_registration_unique (database Sample.world)
           [(Sample.happy 1, UserChildAdded "u1");
            (Sample.happy 2, UserChildAdded "u2");
            (Sample.happy 3, NotificationChildAdded "u1" "n1");
            (Sample.happy 4, UserChildAdded "u1");
            (Sample.happy 5, UserChildAdded "u1")] "u1" 3).
  - reflexivity.
  - lia.
Defined.

(** ** The account-deletion endpoint *)







(** ** One callback on the feed *)

(** With one callback attached for the user, delivering the feed event is one
    run of the per-record task on the stored record. *)
Lemma deliver_single_listener env w userId notifId :
  subscriptions userId w = 1%nat ->
  deliver (NotificationChildAdded userId notifId) env w
  = process_record userId notifId env w.
Proof.
  unfold subscriptions, deliver, process_record, bind, get. intros H1.
  destruct (record_at userId notifId w) as [n|]; [|reflexivity].
  destruct (filter (fun u => u = userId) (userListeners w)) as [|u [|u' l]];
    try discriminate H1.
  cbn [for_each]. unfold bind, ret.
  destruct (spawn (on_notification_added userId (notifId, n)) env w)
    as [[[[]|e] w'] fx]; cbn [app]; now rewrite ?app_nil_r.
Qed.

(** ** Worked examples *)

Example StringToNumber_examples :
  StringToNumber "1700000000000" = Fin (inject_Z 1700000000000) /\
  StringToNumber "  12.50e1 " = Fin (1250 # 10) /\
  StringToNumber "" = Fin 0 /\
  StringToNumber "0x1F" = Fin (inject_Z 31) /\
  StringToNumber "-Infinity" = NegInf /\
  StringToNumber "-0x1F" = NaN /\
  StringToNumber "12px" = NaN /\
  StringToNumber "yesterday" = NaN.
Proof. repeat split. Qed.

(** Scenario A: a fresh record and a profile with a token. *)
Example scenario_A :
  let task := on_notification_added "u1" ("n1", Sample.fresh_record) in
  let env := Sample.happy 1700000000000 in
  sends (effects task env Sample.world)
    = [{| FCM.token := JStr "tok123";
          FCM.notification := None;
          FCM.data := {| FCM.title := JStr "Hi";
                         FCM.body := JStr "New grade posted";
                         FCM.url := JStr "/";
                         FCM.type := JStr "info";
                         FCM.icon := ICON |};
          FCM.webpush := {| FCM.fcm_options := {| FCM.link := JStr "/" |} |} |}] /\
  (record_at "u1" "n1" (final_state task env Sample.world)
     ≫= fun r => r !! "processed") = Some (JBool true).
Proof. split; reflexivity. Qed.

(** Scenario B: the same record ten minutes later. *)
Example scenario_B :
  on_notification_added "u1" ("n1", Sample.fresh_record)
    (Sample.happy 1700000600000) Sample.world
  = (Normal tt, Sample.world, []).
Proof. reflexivity. Qed.

(** Scenario E: the gateway rejects the message. *)
Example scenario_E :
  let task := on_notification_added "u1" ("n1", Sample.fresh_record) in
  let env := Sample.env 1700000000000 (Resolved (Some Sample.profile))
                        (Rejected Sample.unreachable) (Resolved tt) in
  completion task env Sample.world = Normal tt /\
  final_state task env Sample.world = Sample.world /\
  last (effects task env Sample.world)
    = Some (ConsoleError (ErrSending Sample.unreachable)).
Proof. repeat split. Qed.

(** A body that does not parse is answered with 500 and the parser's message. *)
Example malformed_body :
  let syntax_error := Err.mk JUndefined (JStr "Unexpected end of JSON input") in
  let res := respond (Sample.directory (Throw syntax_error)
                        (Rejected Sample.not_found) (Resolved tt))
                     Sample.delete_request in
  Http.statusCode res = 500%Z /\
  Http.ended res = Some (Http.JsonOf [("success", JBool false);
                                      ("error", JStr "Unexpected end of JSON input")]) /\
  Http.headers res !! "Content-Type" = Some "application/json" /\
  Http.headers res !! "Access-Control-Allow-Origin" = Some "*".
Proof. repeat split. Qed.

(** * Further properties of the handlers *)

(** ** One run of the per-record callback *)

(** The outcome of a run, whatever the services answer: normal completion,
    only effects of the callback's own kinds, at most one resolved send, the
    world untouched or marked, and marked whenever a send resolved and the
    write was acknowledged. *)
Lemma on_notification_added_shape env w userId notifId (r : Obj) :
  exists fx w',
    on_notification_added userId (notifId, r) env w = (Normal tt, w', fx) /\
    forallb record_effect fx = true /\
    (length (deliveries fx) <= 1)%nat /\
    (w' = w \/
     w' = mkWorld (apply_update userId notifId {[ "processed" := JBool true ]}
                                (database w))
                  (activeListeners w) (userListeners w)) /\
    (database_update env userId notifId {[ "processed" := JBool true ]}
       = Resolved tt ->
     deliveries fx = [] \/
     w' = mkWorld (apply_update userId notifId {[ "processed" := JBool true ]}
                                (database w))
                  (activeListeners w) (userListeners w)).
Proof.
  assert (Hle : forall x : string, (length (deliveries [ConsoleLog (LogSent x)]) <= 1)%nat)
    by (intros; cbn; lia).
  destruct (decide_record (Date_now env) r) eqn:Hd.
  { exists [], w. rewrite (on_notification_added_Skip _ w _ notifId _ Hd).
    cbn. repeat split; auto. }
  destruct (firestore_get env userId) as [[userData|]|e] eqn:Hf.
  - destruct (truthy (prop userData "fcmToken")) eqn:Ht.
    + destruct (messaging_send env (message (prop userData "fcmToken") r))
        as [response|e] eqn:Hm.
      * destruct (database_update env userId notifId {[ "processed" := JBool true ]})
          as [[]|e] eqn:Hu.
        -- rewrite (on_notification_added_delivered _ w _ _ _ _ _ Hd Hf Ht Hm Hu).
           eexists _, _. split; [reflexivity|].
           repeat split; [apply (Hle response) | now right | now right].
        -- rewrite (on_notification_added_update_error _ w _ _ _ _ _ _ Hd Hf Ht Hm Hu).
           eexists _, _. split; [reflexivity|].
           repeat split; [apply (Hle response) | now left | discriminate].
      * rewrite (on_notification_added_send_error _ w _ _ _ _ _ Hd Hf Ht Hm).
        eexists _, _. split; [reflexivity|].
        repeat split; [cbn; lia | now left | now left].
    + rewrite (on_notification_added_no_token _ w _ _ _ _ Hd Hf Ht).
      eexists _, _. split; [reflexivity|].
      repeat split; [cbn; lia | now left | now left].
  - rewrite (on_notification_added_no_document _ w _ _ _ Hd Hf).
    eexists _, _. split; [reflexivity|].
    repeat split; [cbn; lia | now left | now left].
  - rewrite (on_notification_added_fetch_error _ w _ _ _ _ Hd Hf).
    eexists _, _. split; [reflexivity|].
    repeat split; [cbn; lia | now left | now left].
Qed.

(** X1. A failed read of the profile stays inside the callback: the error is
    logged by the outer catch, the gateway is not called, nothing is
    written, the world is as before and the callback completes normally. *)
Theorem X1_fetch_failure_isolated (env : Env) (w : World) (userId notifId : string)
    (notification : Obj) (error : Error) :
  decide_record (Date_now env) notification = Proceed ->
  firestore_get env userId = Rejected error ->
  let task := on_notification_added userId (notifId, notification) in
  last (effects task env w) = Some (ConsoleError (ErrFetching error)) /\
  fetches (effects task env w) = [userId] /\
  sends (effects task env w) = [] /\
  writes (effects task env w) = [] /\
  final_state task env w = w /\
  completion task env w = Normal tt.
Proof.
  intros Hd Hf task. unfold effects, final_state, completion, task.
  rewrite (on_notification_added_fetch_error _ w _ notifId _ _ Hd Hf).
  repeat split.
Qed.

Lemma X1_fetch_failure_isolated_witness :
  let task := on_notification_added "u1" ("n1", Sample.fresh_record) in
  let env := Sample.env 1700000060000 (Rejected Sample.unreachable)
                        (Resolved "never") (Resolved tt) in
  sends (effects task env Sample.world) = [] /\
  final_state task env Sample.world = Sample.world /\
  completion task env Sample.world = Normal tt.
Proof.
  destruct (X1_fetch_failure_isolated
              (Sample.env 1700000060000 (Rejected Sample.unreachable)
                          (Resolved "never") (Resolved tt))
              Sample.world "u1" "n1" Sample.fresh_record Sample.unreachable)
    as (_ & _ & Hs & _ & Hw & Hc).
  - reflexivity.
  - reflexivity.
  - split; [exact Hs | split; [exact Hw | exact Hc]].
Defined.

(** X2. When the message is sent but the write of the marker is rejected,
    the inner catch logs the error and the record stays unmarked; a later
    run on the same stored record that still passes the filter and finds a
    token calls the gateway again: two calls over the two runs. *)
Theorem X2_write_failure_redelivers (env1 env2 : Env) (w : World)
    (userId notifId : string) (notification userData userData2 : Obj)
    (response : string) (error : Error) :
  record_at userId notifId w = Some notification ->
  decide_record (Date_now env1) notification = Proceed ->
  firestore_get env1 userId = Resolved (Some userData) ->
  truthy (prop userData "fcmToken") = true ->
  messaging_send env1 (message (prop userData "fcmToken") notification)
    = Resolved response ->
  database_update env1 userId notifId {[ "processed" := JBool true ]}
    = Rejected error ->
  decide_record (Date_now env2) notification = Proceed ->
  firestore_get env2 userId = Resolved (Some userData2) ->
  truthy (prop userData2 "fcmToken") = true ->
  let pipeline := process_record userId notifId in
  let w1 := final_state pipeline env1 w in
  w1 = w /\
  completion pipeline env1 w = Normal tt /\
  last (effects pipeline env1 w) = Some (ConsoleError (ErrSending error)) /\
  sends (effects pipeline env1 w ++ effects pipeline env2 w1)
    = [message (prop userData "fcmToken") notification;
       message (prop userData2 "fcmToken") notification].
Proof.
  intros Hr Hd Hf Ht Hm Hu Hd2 Hf2 Ht2 pipeline w1.
  assert (H1 : pipeline env1 w =
    (Normal tt, w,
     [ConsoleLog (LogProcessing userId notification); ConsoleLog (LogFetching userId);
      FirestoreGet userId; ConsoleLog (LogUserFound userId true);
      ConsoleLog (LogSending userId);
      MessagingSend (message (prop userData "fcmToken") notification);
      ConsoleLog (LogSent response);
      DatabaseUpdate userId notifId {[ "processed" := JBool true ]};
      ConsoleError (ErrSending error)])).
  { unfold pipeline. rewrite (process_record_found _ _ _ _ _ Hr).
    now apply on_notification_added_update_error with (userData := userData). }
  assert (Hw1 : w1 = w) by (unfold w1, final_state; now rewrite H1).
  split; [exact Hw1|]. rewrite Hw1.
  unfold completion, effects. rewrite H1. cbn [fst snd].
  split; [reflexivity|]. split; [reflexivity|].
  unfold sends. rewrite omap_app. cbn [omap]. f_equal. f_equal.
  unfold pipeline. rewrite (process_record_found _ _ _ _ _ Hr).
  destruct (messaging_send env2 (message (prop userData2 "fcmToken") notification))
    as [response2|e2] eqn:Hm2.
  - destruct (database_update env2 userId notifId {[ "processed" := JBool true ]})
      as [[]|e2] eqn:Hu2.
    + now rewrite (on_notification_added_delivered _ w _ _ _ _ _ Hd2 Hf2 Ht2 Hm2 Hu2).
    + now rewrite (on_notification_added_update_error _ w _ _ _ _ _ _ Hd2 Hf2 Ht2 Hm2 Hu2).
  - now rewrite (on_notification_added_send_error _ w _ _ _ _ _ Hd2 Hf2 Ht2 Hm2).
Qed.

Lemma X2_write_failure_redelivers_witness :
  let pipeline := process_record "u1" "n1" in
  let env1 := Sample.env 1700000060000 (Resolved (Some Sample.profile))
                         (Resolved "projects/p/messages/1")
                         (Rejected Sample.unreachable) in
  let env2 := Sample.happy 1700000120000 in
  length (sends (effects pipeline env1 Sample.world ++
                 effects pipeline env2 (final_state pipeline env1 Sample.world)))
  = 2%nat.
Proof.
  destruct (X2_write_failure_redelivers
              (Sample.env 1700000060000 (Resolved (Some Sample.profile))
                          (Resolved "projects/p/messages/1")
                          (Rejected Sample.unreachable))
              (Sample.happy 1700000120000) Sample.world "u1" "n1"
              Sample.fresh_record Sample.profile Sample.profile
              "projects/p/messages/1" Sample.unreachable)
    as (_ & _ & _ & Hs).
  - reflexivity.
  - reflexivity.
  - reflexivity.
  - reflexivity.
  - reflexivity.
  - reflexivity.
  - reflexivity.
  - reflexivity.
  - reflexivity.
  - cbv zeta. rewrite Hs. reflexivity.
Defined.

Ltac x3_close :=
  cbn [snd]; unfold fetches, sends, writes; cbn [omap list_omap length];
  repeat split;
  first [ now left | now right | lia | discriminate | reflexivity ].

(** X3. Whatever the services answer, one run of the callback reads the
    profile at most once and only for its own user, calls the gateway at
    most once, and attempts at most one write, which is the marker
    [{processed: true}] at its own record; it writes only after a send. *)
Theorem X3_one_of_each (env : Env) (w : World) (userId notifId : string)
    (notification : Obj) :
  let fx := effects (on_notification_added userId (notifId, notification)) env w in
  (fetches fx = [] \/ fetches fx = [userId]) /\
  (length (sends fx) <= 1)%nat /\
  (writes fx = [] \/
   writes fx = [(userId, notifId, {[ "processed" := JBool true ]})]) /\
  (sends fx = [] -> writes fx = []) /\
  (fetches fx = [] -> sends fx = []).
Proof.
  unfold effects.
  destruct (decide_record (Date_now env) notification) eqn:Hd.
  { rewrite (on_notification_added_Skip _ w _ notifId _ Hd). x3_close. }
  destruct (firestore_get env userId) as [[userData|]|e] eqn:Hf.
  - destruct (truthy (prop userData "fcmToken")) eqn:Ht.
    + destruct (messaging_send env (message (prop userData "fcmToken") notification))
        as [response|e] eqn:Hm.
      * destruct (database_update env userId notifId {[ "processed" := JBool true ]})
          as [[]|e] eqn:Hu.
        -- rewrite (on_notification_added_delivered _ w _ _ _ _ _ Hd Hf Ht Hm Hu).
           x3_close.
        -- rewrite (on_notification_added_update_error _ w _ _ _ _ _ _ Hd Hf Ht Hm Hu).
           x3_close.
      * rewrite (on_notification_added_send_error _ w _ _ _ _ _ Hd Hf Ht Hm).
        x3_close.
    + rewrite (on_notification_added_no_token _ w _ _ _ _ Hd Hf Ht). x3_close.
  - rewrite (on_notification_added_no_document _ w _ _ _ Hd Hf). x3_close.
  - rewrite (on_notification_added_fetch_error _ w _ _ _ _ Hd Hf). x3_close.
Qed.

(** ** Runs of events *)

Lemma record_effects_local (fx : list Effect) :
  forallb record_effect fx = true -> rejections fx = [] /\ attached fx = [].
Proof.
  induction fx as [|e fx IH]; [now split|].
  cbn [forallb]. intros [He Hfx]%andb_true_iff. destruct (IH Hfx) as [Hr Ha].
  unfold rejections, attached in *.
  destruct e; try discriminate He; cbn [omap list_omap]; now rewrite ?Hr, ?Ha.
Qed.

Lemma mark_mark (r : Obj) : mark (mark r) = mark r.
Proof.
  unfold mark, update_record. now rewrite (assoc_L (∪)), (idemp_L (∪)).
Qed.

Lemma mark_processed (r : Obj) : truthy (prop (mark r) "processed") = true.
Proof. unfold mark. now rewrite update_record_processed. Qed.

Lemma mark_other (r : Obj) (field : string) :
  field <> "processed" -> mark r !! field = r !! field.
Proof. apply update_record_other. Qed.

Lemma record_at_mark_at userId notifId w :
  record_at userId notifId (mark_at userId notifId w)
  = Some (mark (default ∅ (record_at userId notifId w))).
Proof. destruct w as [db al ul]. apply record_at_apply_update. Qed.

Lemma record_at_mark_at_other userId notifId w u n :
  (u, n) <> (userId, notifId) ->
  record_at u n (mark_at userId notifId w) = record_at u n w.
Proof. destruct w as [db al ul]. apply record_at_apply_update_other. Qed.

Lemma only_marked_refl w : only_marked w w.
Proof. intros u n. now left. Qed.

Lemma only_marked_trans w0 w1 w2 :
  only_marked w0 w1 -> only_marked w1 w2 -> only_marked w0 w2.
Proof.
  intros H01 H12 u n.
  destruct (H12 u n) as [E12 | (r1 & Hr1 & E12)].
  - rewrite E12. apply H01.
  - destruct (H01 u n) as [E01 | (r0 & Hr0 & E01)].
    + right. exists r1. split; [now rewrite <- E01 | exact E12].
    + right. exists r0. split; [exact Hr0|].
      rewrite E12. rewrite Hr1 in E01. injection E01 as ->. now rewrite mark_mark.
Qed.

Lemma only_marked_mark_at userId notifId w :
  is_Some (record_at userId notifId w) ->
  only_marked w (mark_at userId notifId w).
Proof.
  intros [r Hr] u n.
  destruct (decide ((u, n) = (userId, notifId))) as [[= -> ->] | Hne].
  - right. exists r. split; [exact Hr|]. now rewrite record_at_mark_at, Hr.
  - left. now apply record_at_mark_at_other.
Qed.

(** The callbacks attached for one user, run one after the other on the same
    snapshot. *)
Lemma for_each_spawn_shape env userId notifId (n : Obj) (l : list string) :
  forall w, is_Some (record_at userId notifId w) ->
  exists fx w',
    for_each (fun _ => spawn (on_notification_added userId (notifId, n))) l env w
      = (Normal tt, w', fx) /\
    forallb record_effect fx = true /\
    only_marked w w' /\
    activeListeners w' = activeListeners w /\
    userListeners w' = userListeners w.
Proof.
  induction l as [|u l IH]; intros w Hsome.
  { exists [], w. cbn. repeat split; auto using only_marked_refl. }
  cbn [for_each]. unfold bind. rewrite spawn_on_notification_added.
  destruct (on_notification_added_shape env w userId notifId n)
    as (fx1 & w1 & -> & Hfx1 & Hlen1 & Hw1 & Hack1).
  assert (Hom1 : only_marked w w1).
  { destruct Hw1 as [-> | ->];
      [apply only_marked_refl | now apply only_marked_mark_at]. }
  assert (Hsome1 : is_Some (record_at userId notifId w1)).
  { destruct Hsome as [r Hr].
    destruct (Hom1 userId notifId) as [E | (r0 & _ & E)]; rewrite E; eauto. }
  assert (Hal1 : activeListeners w1 = activeListeners w /\
                 userListeners w1 = userListeners w).
  { destruct Hw1 as [-> | ->]; now split. }
  destruct (IH w1 Hsome1) as (fx2 & w2 & -> & Hfx2 & Hom2 & Hal2 & Hul2).
  exists (fx1 ++ fx2), w2. split; [reflexivity|].
  split; [now rewrite forallb_app, Hfx1, Hfx2|].
  split; [now apply only_marked_trans with w1|].
  split; [now rewrite Hal2; apply Hal1 | now rewrite Hul2; apply Hal1].
Qed.


(** What one event does: nothing escapes, and unless the producer writes,
    records are only marked. *)
Lemma step_shape (w : World) (ee : Env * Event) :
  rejections (step w ee).2 = [] /\
  (is_producer_write ee.2 = false -> only_marked w (step w ee).1).
Proof.
  destruct ee as [env [userId | userId notifId | userId notifId n]];
    unfold step; cbn [fst snd deliver is_producer_write].
  - destruct (decide (userId ∈ activeListeners w)) as [Hin | Hnotin].
    + rewrite (on_user_added_known _ _ _ Hin). split; [reflexivity|].
      intros _. apply only_marked_refl.
    + rewrite (on_user_added_new _ _ _ Hnotin). split; [reflexivity|].
      intros _ u n. now left.
  - unfold bind, get. destruct (record_at userId notifId w) as [n|] eqn:Hr.
    + destruct (for_each_spawn_shape env userId notifId n
                  (filter (fun u => u = userId) (userListeners w)) w)
        as (fx & w' & -> & Hfx & Hom & _); [now rewrite Hr|].
      cbn [fst snd app]. split; [apply (record_effects_local _ Hfx) | now intros _].
    + split; [reflexivity|]. intros _. apply only_marked_refl.
  - split; [reflexivity | discriminate].
Qed.

(** X4. In no run of events does a callback end in an unhandled rejection:
    every throw of a service call is caught inside the callback. *)
Theorem X4_no_unhandled_rejection (w : World) (evs : list (Env * Event)) :
  rejections (run w evs).2 = [].
Proof.
  revert w. induction evs as [|ee evs IH]; intros w; [reflexivity|].
  cbn [run]. pose proof (proj1 (step_shape w ee)) as H1.
  destruct (step w ee) as [w1 fx1]. specialize (IH w1).
  destruct (run w1 evs) as [w2 fx2]. cbn [fst snd] in *.
  unfold rejections in *. now rewrite omap_app, H1, IH.
Qed.

Lemma run_only_marked (evs : list (Env * Event)) : forall w,
  Forall (fun ee => is_producer_write ee.2 = false) evs ->
  only_marked w (run w evs).1.
Proof.
  induction evs as [|ee evs IH]; intros w Hall; [apply only_marked_refl|].
  inversion Hall as [|? ? Hee Hevs]; subst.
  cbn [run]. pose proof (proj2 (step_shape w ee) Hee) as H1.
  destruct (step w ee) as [w1 fx1]. specialize (IH w1 Hevs).
  destruct (run w1 evs) as [w2 fx2]. cbn [fst snd] in *.
  now apply only_marked_trans with w1.
Qed.

(** X5. Along any run in which the producer does not write, the relay never
    creates or removes a record and never changes a field other than
    [processed]; a record either stays as it was or has [processed] set to
    true. *)
Theorem X5_relay_only_marks (w : World) (evs : list (Env * Event))
    (u n : string) :
  Forall (fun ee => is_producer_write ee.2 = false) evs ->
  match record_at u n w with
  | None => record_at u n (run w evs).1 = None
  | Some r =>
      exists r',
        record_at u n (run w evs).1 = Some r' /\
        (forall field, field <> "processed" -> r' !! field = r !! field) /\
        (r' = r \/ prop r' "processed" = JBool true)
  end.
Proof.
  intros Hall. pose proof (run_only_marked evs w Hall u n) as H.
  destruct (record_at u n w) as [r|] eqn:Hr.
  - destruct H as [E | (r0 & [= <-] & E)]; rewrite E.
    + exists r. split; [reflexivity|]. split; [reflexivity | now left].
    + exists (mark r). split; [reflexivity|]. split.
      * intros field Hne. now apply mark_other.
      * right. apply update_record_processed.
  - destruct H as [E | (r0 & [=] & _)]. exact E.
Qed.

Lemma X5_relay_only_marks_witness :
  let evs := [(Sample.happy 1700000060000, UserChildAdded "u1");
              (Sample.happy 1700000060000, NotificationChildAdded "u1" "n1");
              (Sample.happy 1700000090000, NotificationChildAdded "u1" "n1")] in
  exists r',
    record_at "u1" "n1" (run Sample.world evs).1 = Some r' /\
    r' !! "title" = Some (JStr "Hi") /\
    r' !! "timestamp" = Some (JInt 1700000000000).
Proof.
  pose proof (X5_relay_only_marks Sample.world
                [(Sample.happy 1700000060000, UserChildAdded "u1");
                 (Sample.happy 1700000060000, NotificationChildAdded "u1" "n1");
                 (Sample.happy 1700000090000, NotificationChildAdded "u1" "n1")]
                "u1" "n1") as H.
  destruct H as (r' & Hr' & Hframe & _).
  - repeat constructor.
  - exists r'. split; [exact Hr'|]. split.
    + rewrite (Hframe "title"); [reflexivity | discriminate].
    + rewrite (Hframe "timestamp"); [reflexivity | discriminate].
Defined.

(** ** At most one delivery per record *)

Lemma is_notification_added_true userId notifId ev :
  is_notification_added userId notifId ev = true ->
  ev = NotificationChildAdded userId notifId.
Proof.
  destruct ev as [u | u n | u n r]; cbn; try discriminate.
  intros [Hu Hn]%andb_true_iff.
  apply String.eqb_eq in Hu, Hn. now subst.
Qed.

Lemma for_each_skipped env userId (snapshot : string * Obj) (l : list string) w :
  decide_record (Date_now env) snapshot.2 = Skip ->
  for_each (fun _ => spawn (on_notification_added userId snapshot)) l env w
  = (Normal tt, w, []).
Proof.
  intros Hskip. destruct snapshot as [notifId n]. cbn [snd] in Hskip.
  induction l as [|u l IH]; [reflexivity|].
  cbn [for_each]. unfold bind. rewrite spawn_on_notification_added.
  rewrite (on_notification_added_Skip _ w _ notifId _ Hskip).
  now rewrite IH.
Qed.

(** A marked record is inert: its feed event has no effect at all. *)
Lemma step_marked_inert env w userId notifId (r : Obj) :
  record_at userId notifId w = Some r ->
  truthy (prop r "processed") = true ->
  step w (env, NotificationChildAdded userId notifId) = (w, []).
Proof.
  intros Hr Hp. unfold step; cbn [fst snd deliver]. unfold bind, get.
  rewrite Hr. rewrite for_each_skipped; [reflexivity|].
  apply decide_record_Skip. now left.
Qed.

(** A marked record stays marked, unless the producer writes it again. *)
Lemma step_keeps_marked (w : World) (ee : Env * Event) userId notifId (r : Obj) :
  is_producer_write_at userId notifId ee.2 = false ->
  record_at userId notifId w = Some r ->
  truthy (prop r "processed") = true ->
  exists r', record_at userId notifId (step w ee).1 = Some r' /\
             truthy (prop r' "processed") = true.
Proof.
  intros Hpw Hr Hp.
  destruct (is_producer_write ee.2) eqn:Hp2.
  - destruct ee as [env [u | u n | u n r0]]; try discriminate Hp2.
    cbn in Hpw. exists r. split; [|exact Hp].
    unfold step; cbn [fst snd deliver modify]. rewrite <- Hr.
    unfold record_at; cbn [database].
    destruct (decide (u = userId)) as [->|Hu].
    + rewrite lookup_insert_eq; cbn.
      rewrite String.eqb_refl in Hpw. cbn in Hpw.
      apply String.eqb_neq in Hpw.
      rewrite lookup_insert_ne by exact Hpw.
      destruct (database w !! userId); [reflexivity | apply lookup_empty].
    + now rewrite lookup_insert_ne by exact Hu.
  - destruct (proj2 (step_shape w ee) Hp2 userId notifId) as [E | (r0 & Hr0 & E)].
    + exists r. now rewrite E.
    + exists (mark r0). split; [exact E | apply mark_processed].
Qed.






Example one_delivery_over_a_replay :
  deliveries_of "u1" "n1" (start (database Sample.world))
    [(Sample.happy 1700000060000, UserChildAdded "u1");
     (Sample.happy 1700000060000, NotificationChildAdded "u1" "n1");
     (Sample.happy 1700000070000, UserChildAdded "u1");
     (Sample.happy 1700000090000, NotificationChildAdded "u1" "n1")]
  = ["projects/p/messages/1"].
Proof. reflexivity. Qed.

(** A callback works on the snapshot it was given: started on the unmarked
    snapshot of a record whose stored copy is already marked (a delivery that
    overlapped the first callback), it calls the gateway again. *)
Example stale_snapshot_sends_again :
  let first := on_notification_added "u1" ("n1", Sample.fresh_record) in
  let w1 := final_state first (Sample.happy 1700000060000) Sample.world in
  (record_at "u1" "n1" w1 ≫= fun r => r !! "processed") = Some (JBool true) /\
  sends (effects (on_notification_added "u1" ("n1", Sample.fresh_record))
                 (Sample.happy 1700000061000) w1)
  = [message (JStr "tok123") Sample.fresh_record].
Proof. split; reflexivity. Qed.

(** ** Who gets a listener *)

Lemma run_unregistered (u : string) (evs : list (Env * Event)) : forall w,
  user_events u evs = 0%nat ->
  u ∉ activeListeners w ->
  u ∉ activeListeners (run w evs).1.
Proof.
  induction evs as [|ee evs IH]; intros w H0 Hnotin; [exact Hnotin|].
  unfold user_events in H0. cbn [List.filter] in H0.
  destruct (is_user_added u ee.2) eqn:Hev; [discriminate H0|].
  cbn [run]. pose proof (step_registration w ee) as Hs.
  destruct (step w ee) as [w1 fx1]. specialize (IH w1 H0).
  destruct (run w1 evs) as [w2 fx2]. cbn [fst snd] in *. apply IH.
  destruct Hs as [(-> & _) | (userId & Hee & _ & -> & _)]; [exact Hnotin|].
  rewrite Hee in Hev. cbn in Hev. apply String.eqb_neq in Hev.
  intros [E%elem_of_singleton | E]%elem_of_union; [congruence | contradiction].
Qed.

(** X7. After any run from the start of the process, a user has a callback
    attached (exactly one) if and only if a top-level [child_added] event
    for that user occurred in the run; users that never appeared have
    none. *)
Theorem X7_listener_iff_seen (db : gmap string (gmap string Obj))
    (evs : list (Env * Event)) (u : string) :
  subscriptions u (run (start db) evs).1
    = (if Nat.eqb (user_events u evs) 0 then 0 else 1)%nat /\
  (u ∈ activeListeners (run (start db) evs).1 <-> (1 <= user_events u evs)%nat).
Proof.
  assert (Hok : registration_ok (run (start db) evs).1)
    by apply run_registration_ok, start_registration_ok.
  destruct (Nat.eqb (user_events u evs) 0) eqn:E.
  - apply Nat.eqb_eq in E.
    assert (Hnotin : u ∉ activeListeners (run (start db) evs).1).
    { apply run_unregistered; [exact E|]. cbn. apply not_elem_of_empty. }
    split.
    + rewrite (Hok u). now rewrite (bool_decide_eq_false_2 _ Hnotin).
    + split; [contradiction | lia].
  - apply Nat.eqb_neq in E.
    assert (Hin : u ∈ activeListeners (run (start db) evs).1)
      by (apply run_registers; lia).
    split.
    + rewrite (Hok u). now rewrite (bool_decide_eq_true_2 _ Hin).
    + split; [lia | now intros _].
Qed.

(** * Further properties of the HTTP server *)

Ltac run_listener :=
  cbv [request_listener delete_user delete_user_try delete_user_catch
       destructure_email spawn bind ret throw try_catch ask get modify emit
       await call console_log console_error Http.setHeader Http.set_statusCode
       Http.end_ effects final_state completion respond fst snd negb].

(** X8. A preflight request ([OPTIONS], whatever the URL) is answered 204
    with an empty body and the CORS headers, without a Content-Type, and
    touches neither the console nor the directory. *)
Theorem X8_options_preflight (env : Env) (req : Http.Request) :
  Http.method req = "OPTIONS" ->
  Http.statusCode (respond env req) = 204%Z /\
  Http.ended (respond env req) = Some Http.Empty /\
  cors_headers (respond env req) /\
  Http.headers (respond env req) !! "Content-Type" = None /\
  effects (request_listener req) env Http.fresh = [].
Proof.
  intros Hm. unfold cors_headers. run_listener. rewrite Hm.
  change (String.eqb "OPTIONS" "OPTIONS") with true. cbv iota.
  repeat split.
Qed.

Lemma X8_options_preflight_witness :
  Http.statusCode
    (respond (Sample.directory (Normal JsonNull) (Rejected Sample.not_found)
                               (Resolved tt))
             {| Http.method := "OPTIONS"; Http.url := "/delete-user";
                Http.body := "" |}) = 204%Z.
Proof.
  apply (X8_options_preflight
           (Sample.directory (Normal JsonNull) (Rejected Sample.not_found)
                             (Resolved tt))
           {| Http.method := "OPTIONS"; Http.url := "/delete-user";
              Http.body := "" |}).
  reflexivity.
Defined.

(** X9. Every request that is neither a preflight nor exactly
    [POST /delete-user] (another method, another path, a query string) gets
    the health answer: 200, text/plain, the running message, the CORS
    headers, and no call to the directory. *)
Theorem X9_health_fallthrough (env : Env) (req : Http.Request) :
  Http.method req <> "OPTIONS" ->
  ~ (Http.method req = "POST" /\ Http.url req = "/delete-user") ->
  Http.statusCode (respond env req) = 200%Z /\
  Http.ended (respond env req) = Some (Http.Text health_text) /\
  Http.headers (respond env req) !! "Content-Type" = Some "text/plain" /\
  cors_headers (respond env req) /\
  effects (request_listener req) env Http.fresh = [].
Proof.
  intros Hopt Hdel. unfold cors_headers. run_listener.
  apply String.eqb_neq in Hopt. rewrite Hopt.
  assert (Hand : String.eqb (Http.method req) "POST"
                 && String.eqb (Http.url req) "/delete-user" = false).
  { apply andb_false_iff.
    destruct (String.eqb (Http.method req) "POST") eqn:E1; [|now left].
    destruct (String.eqb (Http.url req) "/delete-user") eqn:E2; [|now right].
    apply String.eqb_eq in E1, E2. now destruct Hdel. }
  rewrite Hand. cbv iota. repeat split.
Qed.

Lemma X9_health_fallthrough_witness :
  Http.ended
    (respond (Sample.directory (Normal (JsonObject {[ "email" := Sample.ada ]}))
                               (Resolved {| uid := "uid-ada" |}) (Resolved tt))
             {| Http.method := "POST"; Http.url := "/delete-user?force=1";
                Http.body := Http.body Sample.delete_request |})
  = Some (Http.Text health_text).
Proof.
  apply (X9_health_fallthrough
           (Sample.directory (Normal (JsonObject {[ "email" := Sample.ada ]}))
                             (Resolved {| uid := "uid-ada" |}) (Resolved tt))
           {| Http.method := "POST"; Http.url := "/delete-user?force=1";
              Http.body := Http.body Sample.delete_request |}).
  - discriminate.
  - intros [_ H]. discriminate H.
Defined.

Ltac answered :=
  unfold cors_headers, rejections, lookups, deletions;
  cbn [omap list_omap length app Http.statusCode Http.ended Http.headers];
  repeat split;
  first [ reflexivity | discriminate | lia | now left | now right; left
        | now right; right ].

(** X10. Every request is answered, whatever its body, as long as the
    directory's calls resolve or reject with an error value that has
    properties (an error object, as the directory client rejects; not
    [null] or [undefined]): the listener completes normally with no
    unhandled rejection, the response is ended with status 200, 204 or 500,
    it carries the three CORS headers, and the directory is asked at most
    one lookup and at most one deletion. *)
Theorem X10_always_answered (env : Env) (req : Http.Request) :
  completion (request_listener req) env Http.fresh = Normal tt /\
  Http.ended (respond env req) <> None /\
  cors_headers (respond env req) /\
  (Http.statusCode (respond env req) = 200%Z \/
   Http.statusCode (respond env req) = 204%Z \/
   Http.statusCode (respond env req) = 500%Z) /\
  rejections (effects (request_listener req) env Http.fresh) = [] /\
  (length (lookups (effects (request_listener req) env Http.fresh)) <= 1)%nat /\
  (length (deletions (effects (request_listener req) env Http.fresh)) <= 1)%nat.
Proof.
  run_listener.
  destruct (String.eqb (Http.method req) "OPTIONS"); [answered|].
  destruct (String.eqb (Http.method req) "POST"
            && String.eqb (Http.url req) "/delete-user"); [|answered].
  destruct (JSON_parse env (Http.body req)) as [[|v|members]|e].
  - answered.
  - answered.
  - destruct (truthy (prop members "email")).
    + destruct (getUserByEmail env (prop members "email")) as [u|e].
      * destruct (deleteUser env (uid u)) as [[]|e].
        -- answered.
        -- destruct (strict_eq_string (Err.code e) _); answered.
      * destruct (strict_eq_string (Err.code e) _); answered.
    + answered.
  - destruct (strict_eq_string (Err.code e) _); answered.
Qed.

(** X11. The directory is only reached through [POST /delete-user] with a
    body that parses to an object whose email is truthy: a lookup is made
    for that email only, and an account is deleted only if the lookup
    resolved, and then it is the account the lookup returned. *)
Theorem X11_directory_guard (env : Env) (req : Http.Request) :
  (forall email,
     In email (lookups (effects (request_listener req) env Http.fresh)) ->
     Http.method req = "POST" /\ Http.url req = "/delete-user" /\
     exists members,
       JSON_parse env (Http.body req) = Normal (JsonObject members) /\
       email = prop members "email" /\ truthy email = true) /\
  (forall u,
     In u (deletions (effects (request_listener req) env Http.fresh)) ->
     Http.method req = "POST" /\ Http.url req = "/delete-user" /\
     exists members userRecord,
       JSON_parse env (Http.body req) = Normal (JsonObject members) /\
       truthy (prop members "email") = true /\
       getUserByEmail env (prop members "email") = Resolved userRecord /\
       uid userRecord = u).
Proof.
  unfold lookups, deletions. run_listener.
  destruct (String.eqb (Http.method req) "OPTIONS");
    [split; intros ? []|].
  destruct (String.eqb (Http.method req) "POST") eqn:Em;
    [|split; intros ? []].
  destruct (String.eqb (Http.url req) "/delete-user") eqn:Eu;
    [|split; intros ? []].
  apply String.eqb_eq in Em, Eu. cbn [andb].
  destruct (JSON_parse env (Http.body req)) as [[|v|members]|e] eqn:Hp;
    try (split; intros ? []).
  - destruct (truthy (prop members "email")) eqn:Ht; [|split; intros ? []].
    destruct (getUserByEmail env (prop members "email")) as [ur|e] eqn:Hg.
    + assert (Hlook : forall email, In email [prop members "email"] ->
                Http.method req = "POST" /\ Http.url req = "/delete-user" /\
                exists members0,
                  Normal (JsonObject members) = Normal (JsonObject members0) /\
                  email = prop members0 "email" /\ truthy email = true).
      { intros email [<- | []]. repeat split; try assumption.
        exists members. now repeat split. }
      assert (Hdel : forall u, In u [uid ur] ->
                Http.method req = "POST" /\ Http.url req = "/delete-user" /\
                exists members0 userRecord,
                  Normal (JsonObject members) = Normal (JsonObject members0) /\
                  truthy (prop members0 "email") = true /\
                  getUserByEmail env (prop members0 "email") = Resolved userRecord /\
                  uid userRecord = u).
      { intros u [<- | []]. repeat split; try assumption.
        exists members, ur. now repeat split. }
      destruct (deleteUser env (uid ur)) as [[]|e].
      * split; [exact Hlook | exact Hdel].
      * destruct (strict_eq_string (Err.code e) _); split;
          [exact Hlook | exact Hdel | exact Hlook | exact Hdel].
    + assert (Hlook : forall email, In email [prop members "email"] ->
                Http.method req = "POST" /\ Http.url req = "/delete-user" /\
                exists members0,
                  Normal (JsonObject members) = Normal (JsonObject members0) /\
                  email = prop members0 "email" /\ truthy email = true).
      { intros email [<- | []]. repeat split; try assumption.
        exists members. now repeat split. }
      destruct (strict_eq_string (Err.code e) _); split;
        [exact Hlook | intros ? [] | exact Hlook | intros ? []].
  - destruct (strict_eq_string (Err.code e) _); split; intros ? [].
Qed.

Lemma X11_directory_guard_witness :
  let env := Sample.directory (Normal (JsonObject {[ "email" := Sample.ada ]}))
                              (Resolved {| uid := "uid-ada" |}) (Resolved tt) in
  In "uid-ada" (deletions (effects (request_listener Sample.delete_request)
                                   env Http.fresh)) /\
  exists members userRecord,
    JSON_parse env (Http.body Sample.delete_request)
      = Normal (JsonObject members) /\
    truthy (prop members "email") = true /\
    getUserByEmail env (prop members "email") = Resolved userRecord /\
    uid userRecord = "uid-ada".
Proof.
  assert (Hin : In "uid-ada"
            (deletions (effects (request_listener Sample.delete_request)
               (Sample.directory (Normal (JsonObject {[ "email" := Sample.ada ]}))
                                 (Resolved {| uid := "uid-ada" |}) (Resolved tt))
               Http.fresh))) by (left; reflexivity).
  split; [exact Hin|].
  exact (proj2 (proj2 (proj2 (X11_directory_guard
                     (Sample.directory
                        (Normal (JsonObject {[ "email" := Sample.ada ]}))
                        (Resolved {| uid := "uid-ada" |}) (Resolved tt))
                     Sample.delete_request) "uid-ada" Hin))).
Defined.

(** X12. A [POST /delete-user] whose body parses to something without a
    usable email (a number, string or boolean, an object without [email],
    or with an empty or otherwise falsy one) is answered 500 with the error
    "Email is required", and the directory is not called. *)
Theorem X12_email_required (env : Env) (req : Http.Request) :
  Http.method req = "POST" ->
  Http.url req = "/delete-user" ->
  (exists v, JSON_parse env (Http.body req) = Normal (JsonPrimitive v)) \/
    (exists members,
       JSON_parse env (Http.body req) = Normal (JsonObject members) /\
       truthy (prop members "email") = false) ->
  Http.statusCode (respond env req) = 500%Z /\
  Http.ended (respond env req) =
    Some (Http.JsonOf [("success", JBool false);
                       ("error", JStr "Email is required")]) /\
  Http.headers (respond env req) !! "Content-Type" = Some "application/json" /\
  lookups (effects (request_listener req) env Http.fresh) = [] /\
  deletions (effects (request_listener req) env Http.fresh) = [].
Proof.
  intros Hm Hu Hbody. run_listener. rewrite Hm, Hu.
  change (String.eqb "POST" "OPTIONS") with false.
  change (String.eqb "POST" "POST" && String.eqb "/delete-user" "/delete-user")
    with true.
  cbv iota.
  destruct Hbody as [(v & ->) | (members & -> & Ht)].
  - repeat split.
  - rewrite Ht. repeat split.
Qed.

Lemma X12_email_required_witness :
  Http.statusCode
    (respond (Sample.directory (Normal (JsonObject {[ "email" := JStr "" ]}))
                               (Resolved {| uid := "uid-ada" |}) (Resolved tt))
             Sample.delete_request) = 500%Z.
Proof.
  apply (X12_email_required
           (Sample.directory (Normal (JsonObject {[ "email" := JStr "" ]}))
                             (Resolved {| uid := "uid-ada" |}) (Resolved tt))
           Sample.delete_request).
  - reflexivity.
  - reflexivity.
  - right. exists {[ "email" := JStr "" ]}. split; reflexivity.
Defined.

(** * Replays, restarts and the passing of time *)

(** X13. A record that is already marked (its [processed] is truthy, whoever
    wrote it) is inert: from any world, along any run in which the producer
    does not write it again, the deliveries of its feed event have no
    effect at all: no log line, no profile read, no gateway call, no
    write. *)
Theorem X13_marked_record_inert (w : World) (evs : list (Env * Event))
    (userId notifId : string) (r : Obj) :
  record_at userId notifId w = Some r ->
  truthy (prop r "processed") = true ->
  Forall (fun ee => is_producer_write_at userId notifId ee.2 = false) evs ->
  effects_of userId notifId w evs = [].
Proof.
  revert w r. induction evs as [|ee evs IH]; intros w r Hr Hp Hall; [reflexivity|].
  inversion Hall as [|? ? Hee Hevs]; subst. cbn [effects_of].
  destruct (is_notification_added userId notifId ee.2) eqn:Hours.
  - apply is_notification_added_true in Hours. destruct ee as [env ev].
    cbn [snd] in Hours. subst ev.
    rewrite (step_marked_inert env w userId notifId r Hr Hp).
    cbn [app]. now apply IH with r.
  - destruct (step_keeps_marked w ee userId notifId r Hee Hr Hp) as (r' & Hr' & Hp').
    destruct (step w ee) as [w1 fx1]. cbn [fst app] in *. now apply IH with r'.
Qed.

Lemma X13_marked_record_inert_witness :
  effects_of "u1" "n2" Sample.world
    [(Sample.happy 1700000060000, NotificationChildAdded "u1" "n2");
     (Sample.happy 1700000061000, NotificationChildAdded "u1" "n1");
     (Sample.happy 1700000062000, NotificationChildAdded "u1" "n2")] = [].
Proof.
  apply (X13_marked_record_inert Sample.world
           [(Sample.happy 1700000060000, NotificationChildAdded "u1" "n2");
            (Sample.happy 1700000061000, NotificationChildAdded "u1" "n1");
            (Sample.happy 1700000062000, NotificationChildAdded "u1" "n2")]
           "u1" "n2" Sample.done_record).
  - reflexivity.
  - reflexivity.
  - repeat constructor.
Defined.

(** X14. End to end: once a user's node has been seen, the feed event of a
    stored record of that user that passes the filter, with a profile
    holding a token, a gateway that accepts and a database that
    acknowledges, sends exactly one message and leaves the record marked
    and otherwise unchanged. *)
Theorem X14_fresh_record_delivered (db : gmap string (gmap string Obj))
    (history : list (Env * Event)) (env : Env) (userId notifId : string)
    (notification userData : Obj) (response : string) :
  (1 <= user_events userId history)%nat ->
  record_at userId notifId (run (start db) history).1 = Some notification ->
  decide_record (Date_now env) notification = Proceed ->
  firestore_get env userId = Resolved (Some userData) ->
  truthy (prop userData "fcmToken") = true ->
  messaging_send env (message (prop userData "fcmToken") notification)
    = Resolved response ->
  database_update env userId notifId {[ "processed" := JBool true ]}
    = Resolved tt ->
  let w := (run (start db) history).1 in
  let w' := (step w (env, NotificationChildAdded userId notifId)).1 in
  let fx := (step w (env, NotificationChildAdded userId notifId)).2 in
  sends fx = [message (prop userData "fcmToken") notification] /\
  deliveries fx = [response] /\
  record_at userId notifId w' = Some (mark notification).
Proof.
  intros HN Hr Hd Hf Ht Hm Hu w w' fx.
  assert (Hsub : subscriptions userId w = 1%nat).
  { pose proof (run_registration_ok history (start db) (start_registration_ok db)
                  userId) as Hok.
    fold w in Hok. rewrite Hok.
    now rewrite (bool_decide_eq_true_2 _ (run_registers userId history (start db) HN)). }
  assert (Hstep : step w (env, NotificationChildAdded userId notifId) =
    (mark_at userId notifId w,
     [ConsoleLog (LogProcessing userId notification); ConsoleLog (LogFetching userId);
      FirestoreGet userId; ConsoleLog (LogUserFound userId true);
      ConsoleLog (LogSending userId);
      MessagingSend (message (prop userData "fcmToken") notification);
      ConsoleLog (LogSent response);
      DatabaseUpdate userId notifId {[ "processed" := JBool true ]};
      ConsoleLog (LogMarked notifId)])).
  { unfold step. cbn [fst snd].
    rewrite (deliver_single_listener env w userId notifId Hsub).
    rewrite (process_record_found env w userId notifId notification Hr).
    now rewrite (on_notification_added_delivered _ w _ _ _ _ _ Hd Hf Ht Hm Hu). }
  unfold w', fx. rewrite Hstep. cbn [fst snd].
  split; [reflexivity|]. split; [reflexivity|].
  rewrite record_at_mark_at. fold w in Hr. now rewrite Hr.
Qed.

Lemma X14_fresh_record_delivered_witness :
  let w := (run (start (database Sample.world))
                [(Sample.happy 1700000000000, UserChildAdded "u1")]).1 in
  deliveries (step w (Sample.happy 1700000060000,
                      NotificationChildAdded "u1" "n1")).2
  = ["projects/p/messages/1"].
Proof.
  apply (X14_fresh_record_delivered (database Sample.world)
           [(Sample.happy 1700000000000, UserChildAdded "u1")]
           (Sample.happy 1700000060000) "u1" "n1" Sample.fresh_record
           Sample.profile "projects/p/messages/1").
  - cbn. lia.
  - reflexivity.
  - reflexivity.
  - reflexivity.
  - reflexivity.
  - reflexivity.
  - reflexivity.
Defined.


